(** * Data Quality Analyzer: a shallow embedding of [utils/data_quality.py]

    The analyzer scores master-data tables along six dimensions and
    aggregates them into a weighted score.  This development embeds the
    class [DataQualityAnalyzer] and proves properties of its methods.

    Modelling conventions.
    - A pandas [DataFrame] is a row count (the length of its index) and
      an ordered list of named columns; a column ([Series]) is a dtype
      and a list of cells.  The dtypes covered are int64, float64,
      object (holding [str] or [None]), bool and timezone-naive
      datetime64[ns].
    - A [str] is the sequence of its code points, one character of a
      Rocq string each: the strings covered are those of code points
      below 256 (Latin-1), and upper and lower case are Python's on
      that range.
    - Floating-point numbers are idealised as exact rationals ([Q]);
      NaN, None and NaT are the cell [NA]; infinities are not modelled.
      Scores are compared with [Qeq].  The one place where a float is
      printed, the percentage in the text of a missing-values issue, is
      computed in binary64: rounding to one decimal shows the difference
      (23 nulls in 80 rows are printed as 28.7, not 28.8).
    - [datetime.datetime.now()] is an explicit argument [now]
      (nanoseconds since the epoch, like the timestamps of a column).
    - Three library computations whose result is not a rational function
      of the data are collected in a record [runtime]: the square root
      used by [Series.std], and the [str] conversions of floats and of
      timestamps used by [astype(str)].
    - The one step that the libraries reject, the quantiles of a bool
      column read as a Products measure, has no result: the functions
      that reach it return an [option].
    - The [master_data] dict is a [gmap] from names to Python objects. *)

From Stdlib Require Import ZArith QArith Qminmax Qround List Ascii String Lia Lqa Bool.
From Stdlib Require Import Sorted Permutation.
From stdpp Require Import gmap strings.

Import ListNotations.
Local Open Scope string_scope.
Local Open Scope Q_scope.

(** ** Python strings *)

Module PyStr.

(** [Py_UNICODE_ISUPPER] below 256: A-Z and the Latin-1 capitals
    (U+00C0..U+00DE without the multiplication sign U+00D7). *)
Definition is_upper (c : ascii) : bool :=
  let n := nat_of_ascii c in
  ((Nat.leb 65 n && Nat.leb n 90) ||
   (Nat.leb 192 n && Nat.leb n 222 && negb (Nat.eqb n 215)))%bool.

(** [Py_UNICODE_ISLOWER] below 256: a-z, the ordinal indicators U+00AA
    and U+00BA, the micro sign U+00B5, and the Latin-1 small letters
    (U+00DF..U+00FF without the division sign U+00F7). *)
Definition is_lower (c : ascii) : bool :=
  let n := nat_of_ascii c in
  ((Nat.leb 97 n && Nat.leb n 122) ||
   Nat.eqb n 170 || Nat.eqb n 181 || Nat.eqb n 186 ||
   (Nat.leb 223 n && Nat.leb n 255 && negb (Nat.eqb n 247)))%bool.

(** The lower-case mapping: every capital below 256 has its small
    letter 32 places further; no character below 256 is title case. *)
Definition lower_char (c : ascii) : ascii :=
  if is_upper c then ascii_of_nat (nat_of_ascii c + 32) else c.

(** [s.lower()] *)
Fixpoint lower (s : string) : string :=
  match s with
  | EmptyString => EmptyString
  | String c r => String (lower_char c) (lower r)
  end.

Fixpoint startswith (p s : string) : bool :=
  match p, s with
  | EmptyString, _ => true
  | String a p', String b s' => (Ascii.eqb a b && startswith p' s')%bool
  | String _ _, EmptyString => false
  end.

(** [sub in s] *)
Fixpoint contains (sub s : string) : bool :=
  (startswith sub s ||
   match s with
   | EmptyString => false
   | String _ r => contains sub r
   end)%bool.

Fixpoint has_upper (s : string) : bool :=
  match s with
  | EmptyString => false
  | String c r => (is_upper c || has_upper r)%bool
  end.

Fixpoint has_lower (s : string) : bool :=
  match s with
  | EmptyString => false
  | String c r => (is_lower c || has_lower r)%bool
  end.

(** [s.isupper()]: at least one cased character, none of them lower case. *)
Definition isupper (s : string) : bool := (has_upper s && negb (has_lower s))%bool.

(** [s.islower()] *)
Definition islower (s : string) : bool := (has_lower s && negb (has_upper s))%bool.

(** [s.istitle()]: upper-case characters follow only uncased ones,
    lower-case characters follow only cased ones, and there is at
    least one cased character. *)
Fixpoint istitle_from (previous_is_cased cased : bool) (s : string) : bool :=
  match s with
  | EmptyString => cased
  | String c r =>
      if is_upper c then
        if previous_is_cased then false else istitle_from true true r
      else if is_lower c then
        if previous_is_cased then istitle_from true true r else false
      else istitle_from false cased r
  end.

Definition istitle (s : string) : bool := istitle_from false false s.

Definition digit_char (n : nat) : ascii := ascii_of_nat (48 + n).

Fixpoint digits_fuel (fuel : nat) (n : N) (acc : string) : string :=
  match fuel with
  | O => acc
  | S f =>
      let acc' := String (digit_char (N.to_nat (n mod 10))) acc in
      if (n / 10 =? 0)%N then acc' else digits_fuel f (n / 10)%N acc'
  end.

(** [str(n)] for a natural number *)
Definition str_N (n : N) : string := digits_fuel (S (N.to_nat (N.log2 n))) n "".

(** [str(z)] for an integer *)
Definition str_Z (z : Z) : string :=
  match z with
  | Zneg p => String "-" (str_N (Npos p))
  | _ => str_N (Z.to_N z)
  end.

End PyStr.

(** ** Rational helpers *)

Definition Qlt_bool (x y : Q) : bool := negb (Qle_bool y x).

(** A count as a number. *)
Definition Qnat (n : nat) : Q := inject_Z (Z.of_nat n).

Definition Qsum (l : list Q) : Q := fold_left Qplus l 0.

(** [sum(scores) / len(scores)] *)
Definition average (scores : list Q) : Q := Qsum scores / inject_Z (Z.of_nat (length scores)).

Definition count_true (l : list bool) : nat := length (List.filter id l).

(** [.mean()] of a boolean Series: the fraction of [True] entries. *)
Definition bool_mean (l : list bool) : Q :=
  inject_Z (Z.of_nat (count_true l)) / inject_Z (Z.of_nat (length l)).

Fixpoint insert_sorted (x : Q) (l : list Q) : list Q :=
  match l with
  | [] => [x]
  | y :: r => if Qle_bool x y then x :: l else y :: insert_sorted x r
  end.

Definition sort_values (l : list Q) : list Q := fold_right insert_sorted [] l.

(** [Series.quantile(q)] with linear interpolation, on a non-empty list. *)
Definition quantile (l : list Q) (q : Q) : Q :=
  let s := sort_values l in
  let n := length l in
  let h := inject_Z (Z.of_nat (n - 1)) * q in
  let lo := Z.to_nat (Qfloor h) in
  let a := nth lo s 0 in
  let b := nth (Nat.min (lo + 1) (n - 1)) s 0 in
  a + (h - inject_Z (Qfloor h)) * (b - a).

(** Round half to even, as [format] does on the exact value of its argument. *)
Definition round_half_even (x : Q) : Z :=
  let f := Qfloor x in
  let r := x - inject_Z f in
  if Qlt_bool r (1 # 2) then f
  else if Qlt_bool (1 # 2) r then (f + 1)%Z
  else if Z.even f then f else (f + 1)%Z.

(** [f"{x:.1f}"] *)
Definition format_1f (x : Q) : string :=
  let n := round_half_even (x * 10) in
  let a := Z.abs n in
  ((if (n <? 0)%Z then "-" else "") ++
   PyStr.str_Z (a / 10) ++ "." ++ PyStr.str_Z (a mod 10))%string.

(** ** Binary floating point

    Where the code prints a float, the value printed is the binary64
    number the machine has computed: every operation returns the exact
    result rounded to the nearest float, ties to the even mantissa.
    Floats are the rationals [m * 2^e] with [|m| <= 2^53] and
    [e >= -1074]; overflow does not arise on the values rounded here,
    which are row counts and their quotients. *)

(** The exponent of the leading bit of a rational other than 0: the
    [k] with [2^k <= |x| < 2^(k+1)]. *)
Definition ilog2 (x : Q) : Z :=
  let a := inject_Z (Z.abs (Qnum x)) / inject_Z (Zpos (Qden x)) in
  let k := (Z.log2 (Z.abs (Qnum x)) - Z.log2 (Zpos (Qden x)))%Z in
  if Qle_bool (2 ^ k) a then k else (k - 1)%Z.

(** The float nearest to [x]. *)
Definition round_float64 (x : Q) : Q :=
  if Qeq_bool x 0 then 0
  else
    let e := Z.max (ilog2 x - 52) (-1074) in
    Qred (inject_Z (round_half_even (x / 2 ^ e)) * 2 ^ e).

(** [(count / n) * 100] for a NumPy integer [count] and an [int] [n]:
    both are converted to floats, and the quotient and the product are
    rounded. *)
Definition float_percentage (count n : nat) : Q :=
  let quotient := round_float64 (round_float64 (Qnat count) / round_float64 (Qnat n)) in
  round_float64 (quotient * 100).

(** ** Tables *)

Inductive dtype := int64 | float64 | object | bool_ | datetime64.

Inductive cell :=
| NA                    (* None, NaN or NaT *)
| Int (z : Z)
| Float (q : Q)
| Str (s : string)
| Bool (b : bool)
| Timestamp (t : Z).    (* nanoseconds since the epoch *)

Record Series := { s_dtype : dtype; s_values : list cell }.

(** [index_len] is [len(data)]; [columns] lists the columns in order. *)
Record DataFrame := { index_len : nat; columns : list (string * Series) }.

(** The values of [master_data]: a DataFrame or some other object. *)
Inductive pyobj :=
| PyDataFrame (data : DataFrame)
| PyOther.

Definition dtype_eqb (a b : dtype) : bool :=
  match a, b with
  | int64, int64 | float64, float64 | object, object
  | bool_, bool_ | datetime64, datetime64 => true
  | _, _ => false
  end.

Definition cell_has_dtype (d : dtype) (c : cell) : bool :=
  match d, c with
  | int64, Int _ => true
  | float64, (Float _ | NA) => true
  | object, (Str _ | NA) => true
  | bool_, Bool _ => true
  | datetime64, (Timestamp _ | NA) => true
  | _, _ => false
  end.

Fixpoint distinct_names (l : list string) : bool :=
  match l with
  | [] => true
  | x :: r => (negb (existsb (String.eqb x) r) && distinct_names r)%bool
  end.

(** Well-formed frames: distinct column names, every column as long as
    the index, every cell of the column's dtype. *)
Definition wf_frame (data : DataFrame) : bool :=
  (distinct_names (map fst (columns data)) &&
   forallb (fun c => (Nat.eqb (length (s_values (snd c))) (index_len data) &&
                      forallb (cell_has_dtype (s_dtype (snd c))) (s_values (snd c)))%bool)
           (columns data))%bool.

Definition isnull (c : cell) : bool := match c with NA => true | _ => false end.
Definition notna (c : cell) : bool := negb (isnull c).

(** [series.isnull().sum()] *)
Definition null_count (s : Series) : nat := count_true (map isnull (s_values s)).

(** [series.dropna()] *)
Definition dropna (l : list cell) : list cell := List.filter notna l.

(** [data.empty] *)
Definition df_empty (data : DataFrame) : bool :=
  (Nat.eqb (index_len data) 0 || Nat.eqb (length (columns data)) 0)%bool.

(** [data.size] *)
Definition df_size (data : DataFrame) : nat := (index_len data * length (columns data))%nat.

(** [col in data.columns] *)
Definition has_column (data : DataFrame) (col : string) : bool :=
  existsb (fun c => String.eqb col (fst c)) (columns data).

(** [data[col]] *)
Definition get_column (data : DataFrame) (col : string) : option Series :=
  snd <$> List.find (fun c => String.eqb col (fst c)) (columns data).

(** [pd.api.types.is_datetime64_any_dtype] *)
Definition is_datetime (d : dtype) : bool := dtype_eqb d datetime64.

(** [pd.api.types.is_numeric_dtype] *)
Definition is_numeric_dtype (d : dtype) : bool :=
  match d with int64 | float64 | bool_ => true | _ => false end.

(** The number a cell holds, for comparisons against numeric bounds. *)
Definition cell_num (c : cell) : option Q :=
  match c with
  | Int z => Some (inject_Z z)
  | Float q => Some q
  | Bool b => Some (if b then 1 else 0)
  | _ => None
  end.

(** [x < bound] and [x > bound] on a cell; comparisons with NaN are [False]. *)
Definition cell_lt (c : cell) (bound : Q) : bool :=
  match cell_num c with Some q => Qlt_bool q bound | None => false end.
Definition cell_gt (c : cell) (bound : Q) : bool :=
  match cell_num c with Some q => Qlt_bool bound q | None => false end.

(** [ts > t] and [ts >= t] on a cell; comparisons with NaT are [False]. *)
Definition ts_gt (c : cell) (t : Z) : bool :=
  match c with Timestamp x => (t <? x)%Z | _ => false end.
Definition ts_ge (c : cell) (t : Z) : bool :=
  match c with Timestamp x => (t <=? x)%Z | _ => false end.

(** Equality of key values as [drop_duplicates] sees it: nulls are equal. *)
Definition cell_eqb (a b : cell) : bool :=
  match a, b with
  | NA, NA => true
  | Int x, Int y => (x =? y)%Z
  | Float x, Float y => Qeq_bool x y
  | Str x, Str y => String.eqb x y
  | Bool x, Bool y => Bool.eqb x y
  | Timestamp x, Timestamp y => (x =? y)%Z
  | _, _ => false
  end.

Fixpoint row_eqb (a b : list cell) : bool :=
  match a, b with
  | [], [] => true
  | x :: a', y :: b' => (cell_eqb x y && row_eqb a' b')%bool
  | _, _ => false
  end.

(** [frame.drop_duplicates()]: keep the first occurrence of every row. *)
Fixpoint drop_duplicates (rows : list (list cell)) : list (list cell) :=
  match rows with
  | [] => []
  | r :: rest => r :: List.filter (fun r' => negb (row_eqb r r')) (drop_duplicates rest)
  end.

(** [data[key_fields]] as a list of rows. *)
Definition key_rows (data : DataFrame) (key_fields : list string) : list (list cell) :=
  map (fun i =>
         map (fun k => match get_column data k with
                       | Some s => nth i (s_values s) NA
                       | None => NA
                       end) key_fields)
      (seq 0 (index_len data)).

(** Python's [max(a, b)] and [min(a, b)] on numbers. *)
Definition pymax (a b : Q) : Q := if Qlt_bool a b then b else a.
Definition pymin (a b : Q) : Q := if Qlt_bool b a then b else a.

(** ** Results *)

Record Issue := { field : string; issue : string; impact : string }.

Record Metrics := {
  completeness : Q;
  consistency : Q;
  validity : Q;
  uniqueness : Q;
  timeliness : Q;
  accuracy : Q;
  issues : list Issue
}.

(** [metrics[dimension]] for the numeric entries of the dict. *)
Definition metrics_get (metrics : Metrics) (dimension : string) : option Q :=
  if String.eqb dimension "completeness" then Some (completeness metrics)
  else if String.eqb dimension "consistency" then Some (consistency metrics)
  else if String.eqb dimension "validity" then Some (validity metrics)
  else if String.eqb dimension "uniqueness" then Some (uniqueness metrics)
  else if String.eqb dimension "timeliness" then Some (timeliness metrics)
  else if String.eqb dimension "accuracy" then Some (accuracy metrics)
  else None.

(** Library computations that are not rational functions of the data. *)
Record runtime := {
  sqrt : Q -> Q;                  (* the square root taken by [Series.std] *)
  str_float : Q -> string;        (* [str(x)] for a float *)
  str_timestamp : Z -> string     (* [str(t)] for a timestamp *)
}.

(** 90 days in nanoseconds: [datetime.timedelta(days=90)]. *)
Definition days_90 : Z := (90 * 86400 * 1000000000)%Z.

(** ** The analyzer *)

Section Analyzer.

Variable rt : runtime.

(** *** [_calculate_completeness] *)

(** [data.isnull().sum().sum()] *)
Definition missing_cells (data : DataFrame) : nat :=
  fold_right (fun c acc => (null_count (snd c) + acc)%nat) O (columns data).

Definition _calculate_completeness (data : DataFrame) : Q :=
  if df_empty data then 0
  else
    let total_cells := df_size data in
    if Nat.eqb total_cells 0 then 0
    else 100 * (1 - (Qnat (missing_cells data) / Qnat total_cells)).

(** *** [_calculate_consistency] *)

(** [isinstance(x, (int, float))]; [bool] is a subclass of [int]. *)
Definition isinstance_int_float (c : cell) : bool :=
  match c with Int _ | Float _ | Bool _ => true | _ => false end.

(** [pd.notna(x) and not isinstance(x, (int, float))] *)
Definition is_non_numeric (c : cell) : bool := (notna c && negb (isinstance_int_float c))%bool.

(** [series.str.<pred>()] on the strings of an object column. *)
Definition str_is (pred : string -> bool) (c : cell) : bool :=
  match c with Str s => pred s | _ => false end.

(** The scores one column contributes to the generic checks. *)
Definition column_consistency (s : Series) : list Q :=
  if forallb isnull (s_values s) then []
  else
    (if (dtype_eqb (s_dtype s) int64 || dtype_eqb (s_dtype s) float64)%bool then
       let non_numeric := map is_non_numeric (s_values s) in
       if existsb id non_numeric then [100 * (1 - bool_mean non_numeric)] else []
     else []) ++
    (if dtype_eqb (s_dtype s) object then
       let non_null_values := dropna (s_values s) in
       if (0 <? length non_null_values)%nat then
         let upper_case := bool_mean (map (str_is PyStr.isupper) non_null_values) in
         let lower_case := bool_mean (map (str_is PyStr.islower) non_null_values) in
         let title_case := bool_mean (map (str_is PyStr.istitle) non_null_values) in
         let max_case := pymax (pymax upper_case lower_case) title_case in
         if Qlt_bool (1 # 2) max_case then [100 * max_case] else []
       else []
     else []).

(** [series.astype(str)] on one value. *)
Definition astype_str (c : cell) : string :=
  match c with
  | Str s => s
  | Int z => PyStr.str_Z z
  | Float q => str_float rt q
  | Bool b => if b then "True" else "False"
  | Timestamp t => str_timestamp rt t
  | NA => "nan"
  end.

(** [100 * (1 - codes.str.len().std() / codes.str.len().mean())], or
    [None] when the result is NaN: the sample standard deviation of
    fewer than two values is NaN, and so is 0/0 when every code is the
    empty string. *)
Definition length_consistency (codes : list string) : option Q :=
  let lens := map (fun s => Qnat (String.length s)) codes in
  let n := length codes in
  let mean := Qsum lens / Qnat n in
  if (n <=? 1)%nat then None
  else if Qeq_bool mean 0 then None
  else
    let var := Qsum (map (fun x => (x - mean) * (x - mean)) lens) / Qnat (n - 1) in
    Some (100 * (1 - sqrt rt var / mean)).

(** The type-specific check of the identifier column [col]. *)
Definition id_consistency (data : DataFrame) (col : string) : list Q :=
  if has_column data col then
    match get_column data col with
    | Some s =>
        let codes := map astype_str (dropna (s_values s)) in
        if (0 <? length codes)%nat then
          match length_consistency codes with
          | Some length_consistency => [pymax 0 (pymin 100 length_consistency)]
          | None => []
          end
        else []
    | None => []
    end
  else [].

Definition consistency_scores (data_type : string) (data : DataFrame) : list Q :=
  flat_map (fun c => column_consistency (snd c)) (columns data) ++
  (if String.eqb data_type "Products" then id_consistency data "ProductID"
   else if String.eqb data_type "Locations" then id_consistency data "LocationID"
   else []).

Definition _calculate_consistency (data_type : string) (data : DataFrame) : Q :=
  if df_empty data then 0
  else
    let consistency_scores := consistency_scores data_type data in
    match consistency_scores with
    | [] => 95
    | _ => average consistency_scores
    end.

(** *** [_calculate_validity] *)

Definition valid_categories : list string := ["RAW"; "WIP"; "FG"; "SPARE"; "SERVICE"].
Definition valid_uoms : list string := ["EA"; "KG"; "L"; "M"; "PC"; "CS"].
Definition valid_types : list string := ["PLANT"; "DC"; "WAREHOUSE"; "STORE"; "SUPPLIER"; "CUSTOMER"].

(** [series.isin(allowed)] on one value. *)
Definition isin (allowed : list string) (c : cell) : bool :=
  match c with Str s => existsb (String.eqb s) allowed | _ => false end.

(** The score of one date column, when the check applies to it. *)
Definition future_date_check (now : Z) (c : string * Series) : list Q :=
  if is_datetime (s_dtype (snd c)) then
    if (negb (PyStr.contains "future" (PyStr.lower (fst c))) &&
        negb (PyStr.contains "forecast" (PyStr.lower (fst c))))%bool then
      let future_dates := map (fun x => ts_gt x now) (s_values (snd c)) in
      let invalid_future :=
        if negb (Nat.eqb (length future_dates) 0) then bool_mean future_dates else 0 in
      [100 * (1 - invalid_future)]
    else []
  else [].

(** The allow-list check of the column [col], when it is an object column. *)
Definition allowed_values_check (data : DataFrame) (col : string) (allowed : list string) : list Q :=
  if has_column data col then
    match get_column data col with
    | Some s =>
        if dtype_eqb (s_dtype s) object then
          [100 * bool_mean (map (fun x => (isin allowed x || isnull x)%bool) (s_values s))]
        else []
    | None => []
    end
  else [].

Definition validity_scores (now : Z) (data_type : string) (data : DataFrame) : list Q :=
  let date_columns :=
    List.filter (fun c => (PyStr.contains "date" (PyStr.lower (fst c)) ||
                           PyStr.contains "time" (PyStr.lower (fst c)))%bool) (columns data) in
  flat_map (future_date_check now) date_columns ++
  (if String.eqb data_type "Products" then
     allowed_values_check data "ProductCategory" valid_categories ++
     allowed_values_check data "UnitOfMeasure" valid_uoms
   else if String.eqb data_type "Locations" then
     allowed_values_check data "LocationType" valid_types
   else []).

Definition _calculate_validity (now : Z) (data_type : string) (data : DataFrame) : Q :=
  if df_empty data then 0
  else
    let validity_scores := validity_scores now data_type data in
    match validity_scores with
    | [] => 90
    | _ => average validity_scores
    end.

(** *** [_get_key_fields] and [_calculate_uniqueness] *)

Definition key_mapping : gmap string (list string) :=
  list_to_map
    [("Products", ["ProductID"]);
     ("Locations", ["LocationID"]);
     ("Customers", ["CustomerID"]);
     ("Suppliers", ["SupplierID"]);
     ("Time Profiles", ["TimeProfileID"]);
     ("Resource Plans", ["ResourceID"])].

Definition looks_like_id (col : string) : bool :=
  (PyStr.contains "id" (PyStr.lower col) ||
   PyStr.contains "code" (PyStr.lower col) ||
   PyStr.contains "key" (PyStr.lower col))%bool.

Definition _get_key_fields (data_type : string) (data : DataFrame) : list string :=
  match key_mapping !! data_type with
  | Some keys => List.filter (has_column data) keys
  | None =>
      let id_columns := List.filter looks_like_id (map fst (columns data)) in
      firstn 1 id_columns
  end.

Definition _calculate_uniqueness (data_type : string) (data : DataFrame) : Q :=
  if df_empty data then 0
  else
    let key_fields := _get_key_fields data_type data in
    match key_fields with
    | [] => 98
    | _ =>
        if forallb (has_column data) key_fields then
          let total_records := index_len data in
          let unique_records := length (drop_duplicates (key_rows data key_fields)) in
          if Nat.eqb total_records 0 then 0
          else 100 * (Qnat unique_records / Qnat total_records)
        else 90
    end.

(** *** [_calculate_timeliness] *)

Definition timestamp_terms : list string := ["update"; "modified"; "change"; "timestamp"].

Definition _calculate_timeliness (now : Z) (data : DataFrame) : Q :=
  if df_empty data then 0
  else
    let timestamp_columns :=
      List.filter (fun c => existsb (fun term => PyStr.contains term (PyStr.lower (fst c)))
                                    timestamp_terms) (columns data) in
    match timestamp_columns with
    | [] => 85
    | timestamp_col :: _ =>
        if negb (is_datetime (s_dtype (snd timestamp_col))) then 85
        else
          let threshold_date := (now - days_90)%Z in
          let recent_updates :=
            bool_mean (map (fun x => ts_ge x threshold_date) (s_values (snd timestamp_col))) in
          100 * recent_updates
    end.

(** *** [_calculate_accuracy] *)

Definition numeric_columns : list string := ["Weight"; "Length"; "Width"; "Height"; "Volume"].
Definition coordinate_columns : list string := ["Latitude"; "Longitude"].

(** The two checks of one numeric Products column.  The quantiles of a
    bool column are not defined (NumPy rejects the subtraction of
    booleans in its interpolation): no result is modelled there. *)
Definition numeric_column_checks (s : Series) : option (list Q) :=
  let negative_values := bool_mean (map (fun x => cell_lt x 0) (s_values s)) in
  let non_null_values := dropna (s_values s) in
  if (0 <? length non_null_values)%nat then
    match s_dtype s with
    | bool_ => None
    | _ =>
        let numbers := omap cell_num non_null_values in
        let q1 := quantile numbers (1 # 4) in
        let q3 := quantile numbers (3 # 4) in
        let iqr := q3 - q1 in
        let lower_bound := q1 - 5 * iqr in
        let upper_bound := q3 + 5 * iqr in
        let extreme_outliers :=
          bool_mean (map (fun x => (cell_lt x lower_bound || cell_gt x upper_bound)%bool)
                         non_null_values) in
        Some [100 * (1 - negative_values); 100 * (1 - extreme_outliers)]
    end
  else Some [100 * (1 - negative_values)].

(** The loop over [numeric_columns], from the scores collected so far. *)
Definition products_loop (data : DataFrame) (cols : list string) (acc : option (list Q))
  : option (list Q) :=
  fold_left
    (fun (acc : option (list Q)) col =>
       accuracy_scores ← acc;
       match get_column data col with
       | Some s =>
           if (has_column data col && is_numeric_dtype (s_dtype s))%bool then
             checks ← numeric_column_checks s; Some (accuracy_scores ++ checks)%list
           else Some accuracy_scores
       | None => Some accuracy_scores
       end)
    cols acc.

Definition products_accuracy_scores (data : DataFrame) : option (list Q) :=
  products_loop data numeric_columns (Some []).

(** The range check of one coordinate column, when it is numeric. *)
Definition coordinate_check (data : DataFrame) (col : string) (bound : Q) : list Q :=
  match get_column data col with
  | Some s =>
      if is_numeric_dtype (s_dtype s) then
        let invalid :=
          bool_mean (map (fun x => (cell_lt x (- bound) || cell_gt x bound)%bool) (s_values s)) in
        [100 * (1 - invalid)]
      else []
  | None => []
  end.

Definition locations_accuracy_scores (data : DataFrame) : list Q :=
  if forallb (has_column data) coordinate_columns then
    coordinate_check data "Latitude" 90 ++ coordinate_check data "Longitude" 180
  else [].

Definition accuracy_scores (data_type : string) (data : DataFrame) : option (list Q) :=
  if String.eqb data_type "Products" then products_accuracy_scores data
  else if String.eqb data_type "Locations" then Some (locations_accuracy_scores data)
  else Some [].

Definition _calculate_accuracy (now : Z) (data_type : string) (data : DataFrame) : option Q :=
  if df_empty data then Some 0
  else
    accuracy_scores ← accuracy_scores data_type data;
    match accuracy_scores with
    | [] =>
        let completeness := _calculate_completeness data in
        let consistency := _calculate_consistency data_type data in
        let validity := _calculate_validity now data_type data in
        let estimated_accuracy :=
          (4 # 10) * completeness + (3 # 10) * consistency + (3 # 10) * validity in
        Some (pymin 95 estimated_accuracy)
    | _ => Some (average accuracy_scores)
    end.

(** *** [analyze_data_health_for_type] *)

(** [sort_values(ascending=False)] on the null counts.  Equal counts
    stay in the order of the columns: that is the order pandas gives
    for up to 16 fields with nulls, where its default sort (NumPy's
    quicksort) sorts by insertion.  On longer inputs NumPy's order of
    equal counts depends on its partitioning and is not reproduced; the
    statements below that speak of the order speak of the counts
    only. *)
Fixpoint insert_by_count (x : string * nat) (l : list (string * nat)) : list (string * nat) :=
  match l with
  | [] => [x]
  | y :: r => if (snd y <=? snd x)%nat then x :: l else y :: insert_by_count x r
  end.

Definition sort_by_count (l : list (string * nat)) : list (string * nat) :=
  fold_right insert_by_count [] l.

(** The body of the loop over [problem_fields.items()].  The
    comparisons with 5 and 20 are made on the exact percentage, as all
    comparisons of floats are here; the text has the digits of the
    float that the code formats. *)
Definition missing_values_issue (data : DataFrame) (p : string * nat) : list Issue :=
  let null_percentage := (Qnat (snd p) / Qnat (index_len data)) * 100 in
  if Qlt_bool 5 null_percentage then
    [{| field := fst p;
        issue := "Missing values ("
                 ++ format_1f (float_percentage (snd p) (index_len data)) ++ "%)";
        impact := if Qlt_bool 20 null_percentage then "High" else "Medium" |}]
  else [].

(** The issues of the fields with null values. *)
Definition completeness_issues (data : DataFrame) : list Issue :=
  let null_counts := map (fun c => (fst c, null_count (snd c))) (columns data) in
  let problem_fields := sort_by_count (List.filter (fun p => (0 <? snd p)%nat) null_counts) in
  flat_map (missing_values_issue data) problem_fields.

Definition analyze_data_health_for_type (now : Z) (data_type : string) (data : DataFrame)
  : option Metrics :=
  let completeness := _calculate_completeness data in
  let issues1 := if Qlt_bool completeness 95 then completeness_issues data else [] in
  let consistency := _calculate_consistency data_type data in
  let validity := _calculate_validity now data_type data in
  let uniqueness := _calculate_uniqueness data_type data in
  let issues2 :=
    if Qlt_bool uniqueness 100 then
      [{| field := "Key fields";
          issue := "Duplicate records detected";
          impact := if Qlt_bool uniqueness 90 then "High" else "Medium" |}]
    else [] in
  let timeliness := _calculate_timeliness now data in
  let issues3 :=
    if Qlt_bool timeliness 80 then
      [{| field := "Last updated";
          issue := "Many records not recently updated";
          impact := "Medium" |}]
    else [] in
  accuracy ← _calculate_accuracy now data_type data;
  Some {| completeness := completeness;
          consistency := consistency;
          validity := validity;
          uniqueness := uniqueness;
          timeliness := timeliness;
          accuracy := accuracy;
          issues := (issues1 ++ issues2 ++ issues3)%list |}.

(** *** The two entry points *)

Record DataQualityAnalyzer := {
  master_data : gmap string pyobj;
  quality_dimensions : list string
}.

Definition __init__ (master_data : gmap string pyobj) : DataQualityAnalyzer :=
  {| master_data := master_data;
     quality_dimensions :=
       ["completeness"; "consistency"; "validity"; "uniqueness"; "timeliness"; "accuracy"] |}.

(** [isinstance(data, pd.DataFrame) and not data.empty] *)
Definition has_data (data : pyobj) : option DataFrame :=
  match data with
  | PyDataFrame df => if negb (df_empty df) then Some df else None
  | PyOther => None
  end.

Definition weights : list (string * Q) :=
  [("completeness", 0.25); ("consistency", 0.2); ("validity", 0.2);
   ("uniqueness", 0.15); ("timeliness", 0.1); ("accuracy", 0.1)].

(** The loop over [weights.items()]. *)
Definition weighted_score (metrics : Metrics) : Q :=
  fold_left
    (fun weighted_score (w : string * Q) =>
       match metrics_get metrics (fst w) with
       | Some value => let score := value / 10 in weighted_score + score * snd w
       | None => weighted_score
       end)
    weights 0.

(** The metrics of a dataset without data. *)
Definition no_data_metrics : Metrics :=
  {| completeness := 0; consistency := 0; validity := 0;
     uniqueness := 0; timeliness := 0; accuracy := 0;
     issues := [{| field := "all"; issue := "No data available"; impact := "High" |}] |}.

(** The body of the loop of [calculate_quality_scores] for one item. *)
Definition quality_score (now : Z) (data_type : string) (data : pyobj) : option Q :=
  match has_data data with
  | Some df =>
      metrics ← analyze_data_health_for_type now data_type df;
      Some (pymin (weighted_score metrics) 10)
  | None => Some 0
  end.

(** The body of the loop of [analyze_data_health] for one item. *)
Definition data_health (now : Z) (data_type : string) (data : pyobj) : option Metrics :=
  match has_data data with
  | Some df => analyze_data_health_for_type now data_type df
  | None => Some no_data_metrics
  end.

(** [for data_type, data in d.items(): results[data_type] = body]:
    no result when the body fails on some item. *)
Definition for_items {A B : Type} (body : string -> A -> option B) (d : gmap string A)
  : option (gmap string B) :=
  map_fold (fun data_type data acc =>
              results ← acc; r ← body data_type data; Some (<[data_type := r]> results))
           (Some ∅) d.

Definition calculate_quality_scores (now : Z) (self : DataQualityAnalyzer)
  : option (gmap string Q) :=
  for_items (quality_score now) (master_data self).

Definition analyze_data_health (now : Z) (self : DataQualityAnalyzer)
  : option (gmap string Metrics) :=
  for_items (data_health now) (master_data self).

End Analyzer.

(** A runtime for evaluating the analyzer on the sample tables: the
    square root is the identity, exact at 0 (the variance of the code
    lengths in the samples), and the conversions return fixed strings
    of the usual shapes. *)
Definition sample_runtime : runtime :=
  {| sqrt := fun q => q;
     str_float := fun _ => "0.0";
     str_timestamp := fun _ => "2024-01-01 00:00:00" |}.

(** ** Predicates used in the statements *)

(** A score is a percentage when it lies between 0 and 100. *)
Definition percentage (q : Q) : Prop := 0 <= q /\ q <= 100.

(** All six dimension scores of a report are percentages. *)
Definition metrics_in_range (m : Metrics) : Prop :=
  percentage (completeness m) /\ percentage (consistency m) /\ percentage (validity m) /\
  percentage (uniqueness m) /\ percentage (timeliness m) /\ percentage (accuracy m).

(** Every DataFrame of the dict is well formed. *)
Definition wf_master_data (d : gmap string pyobj) : Prop :=
  map_Forall (fun _ data => match data with
                            | PyDataFrame df => wf_frame df = true
                            | PyOther => True
                            end) d.

(** A dataset that is empty (zero rows) or missing / not a table. *)
Definition zero_rows_or_missing (data : pyobj) : Prop :=
  match data with
  | PyDataFrame df => index_len df = O
  | PyOther => True
  end.

(** [data'] is [data] with some cells replaced by nulls, all else equal
    (the dtype of a column may change with the replacement). *)
Definition nullified (data data' : DataFrame) : Prop :=
  index_len data' = index_len data /\
  Forall2 (fun c c' =>
             fst c' = fst c /\
             Forall2 (fun x x' => x' = x \/ x' = NA) (s_values (snd c)) (s_values (snd c')))
          (columns data) (columns data').

(** The column name contains "update", "modified", "change" or
    "timestamp", whatever the case of its letters. *)
Definition is_timestamp_name (col : string) : bool :=
  existsb (fun term => PyStr.contains term (PyStr.lower col)) timestamp_terms.

(** The number of rows of a column whose value is at or after [now]
    minus 90 days. *)
Definition recent_rows (now : Z) (s : Series) : nat :=
  length (List.filter (fun x => match x with
                                | Timestamp t => (now - days_90 <=? t)%Z
                                | _ => false
                                end) (s_values s)).

(** The number of rows of a column whose value is later than [now]. *)
Definition future_rows (now : Z) (s : Series) : nat :=
  length (List.filter (fun x => match x with
                                | Timestamp t => (now <? t)%Z
                                | _ => false
                                end) (s_values s)).






(** Two clock readings place the timestamp of a cell on the same side
    of "now" and of "now minus 90 days". *)
Definition same_side (now1 now2 : Z) (c : cell) : Prop :=
  ts_gt c now1 = ts_gt c now2 /\
  ts_ge c (now1 - days_90) = ts_ge c (now2 - days_90).

Definition frame_same_side (now1 now2 : Z) (data : DataFrame) : Prop :=
  Forall (fun c => Forall (same_side now1 now2) (s_values (snd c))) (columns data).

Definition clocks_agree_on (now1 now2 : Z) (d : gmap string pyobj) : Prop :=
  map_Forall (fun _ data => match data with
                            | PyDataFrame df => frame_same_side now1 now2 df
                            | PyOther => True
                            end) d.

(** No two rows are equal. *)
Fixpoint all_distinct (rows : list (list cell)) : bool :=
  match rows with
  | [] => true
  | r :: rest => (forallb (fun r' => negb (row_eqb r r')) rest && all_distinct rest)%bool
  end.

(** The key fields as the claim words them: those of the fixed lookup
    for the type, or for an unmapped type the first column whose name
    contains "id", "code" or "key". *)
Definition claimed_key_fields (data_type : string) (data : DataFrame) : list string :=
  match key_mapping !! data_type with
  | Some keys => keys
  | None => firstn 1 (List.filter looks_like_id (map fst (columns data)))
  end.

(** The uniqueness score as the claim words it. *)
Definition claimed_uniqueness (data_type : string) (data : DataFrame) : Q :=
  match claimed_key_fields data_type data with
  | [] => 98
  | key_fields =>
      if forallb (has_column data) key_fields then
        100 * (Qnat (length (drop_duplicates (key_rows data key_fields)))
               / Qnat (index_len data))
      else 90
  end.

(** The table has the column [col], with a numeric dtype. *)
Definition has_numeric_column (data : DataFrame) (col : string) : bool :=
  match get_column data col with
  | Some s => is_numeric_dtype (s_dtype s)
  | None => false
  end.

(** A dataset-specific accuracy check applies: a Products table has one
    of the measure columns with a numeric dtype; a Locations table has
    both coordinate columns, at least one of them numeric. *)
Definition accuracy_check_applies (data_type : string) (data : DataFrame) : bool :=
  if String.eqb data_type "Products" then existsb (has_numeric_column data) numeric_columns
  else if String.eqb data_type "Locations" then
    (forallb (has_column data) coordinate_columns &&
     existsb (has_numeric_column data) coordinate_columns)%bool
  else false.



(** The scores of a report in lowest terms, for display. *)
Definition reduced (m : Metrics) : Metrics :=
  {| completeness := Qred (completeness m);
     consistency := Qred (consistency m);
     validity := Qred (validity m);
     uniqueness := Qred (uniqueness m);
     timeliness := Qred (timeliness m);
     accuracy := Qred (accuracy m);
     issues := issues m |}.

(** ** Sample data *)

Definition day : Z := (86400 * 1000000000)%Z.

(** A clock reading for the samples. *)
Definition sample_now : Z := (19000 * day)%Z.

Definition sample_weight : Series :=
  {| s_dtype := float64; s_values := [Float 1.5; Float 2; NA; Float (-1)] |}.

Definition sample_products : DataFrame :=
  {| index_len := 4;
     columns :=
       [("ProductID",
         {| s_dtype := object;
            s_values := [Str "P000001"; Str "P000002"; Str "P000003"; Str "P000003"] |});
        ("ProductCategory",
         {| s_dtype := object; s_values := [Str "RAW"; Str "FG"; NA; Str "BAD"] |});
        ("Weight", sample_weight);
        ("LastUpdated",
         {| s_dtype := datetime64;
            s_values := [Timestamp (sample_now - 10 * day); Timestamp (sample_now - 100 * day);
                         NA; Timestamp (sample_now - day)] |})] |}.


Definition sample_ids : Series :=
  {| s_dtype := int64;
     s_values := [Int 1; Int 2; Int 3; Int 4; Int 5; Int 6; Int 7; Int 8; Int 9; Int 10] |}.

(** Ten timestamps; three of them are at most 90 days old. *)
Definition sample_updated_at : Series :=
  {| s_dtype := datetime64;
     s_values :=
       [Timestamp (sample_now - 5 * day); Timestamp (sample_now - 200 * day);
        Timestamp (sample_now - 91 * day); Timestamp (sample_now - 90 * day);
        Timestamp (sample_now - 400 * day); Timestamp (sample_now - 120 * day);
        Timestamp (sample_now - 30 * day); Timestamp (sample_now - 365 * day);
        Timestamp (sample_now - 100 * day); Timestamp (sample_now - 150 * day)] |}.

(** Ten rows; three of them were updated in the last 90 days. *)
Definition sample_updates : DataFrame :=
  {| index_len := 10;
     columns := [("ID", sample_ids); ("UpdatedAt", sample_updated_at)] |}.

(** Ten rows with the key column "ID"; the value 3 occurs twice. *)
Definition sample_duplicate : DataFrame :=
  {| index_len := 10;
     columns :=
       [("ID",
         {| s_dtype := int64;
            s_values := [Int 1; Int 2; Int 3; Int 4; Int 5; Int 6; Int 7; Int 8; Int 9; Int 3] |});
        ("Name",
         {| s_dtype := object;
            s_values := [Str "a"; Str "b"; Str "c"; Str "d"; Str "e";
                         Str "f"; Str "g"; Str "h"; Str "i"; Str "j"] |})] |}.

(** Seven values, one of them null. *)
Definition sample_sparse_c : Series :=
  {| s_dtype := float64;
     s_values := [Float 1; Float 2; NA; Float 4; Float 5; Float 6; Float 7] |}.

(** Seven rows and three columns; one of the 21 cells is null. *)
Definition sample_sparse : DataFrame :=
  {| index_len := 7;
     columns :=
       [("A", {| s_dtype := int64;
                 s_values := [Int 1; Int 2; Int 3; Int 4; Int 5; Int 6; Int 7] |});
        ("B", {| s_dtype := int64;
                 s_values := [Int 7; Int 6; Int 5; Int 4; Int 3; Int 2; Int 1] |});
        ("C", sample_sparse_c)] |}.




(** Three time profiles with the columns "ProfileID", "ProfileName",
    "TimeUnit" and "PeriodLength" of the demo data
    ([utils/demo_data_generator.py]); the profiles are keyed by
    "ProfileID", and the table has no column "TimeProfileID". *)
Definition sample_time_profiles : DataFrame :=
  {| index_len := 3;
     columns :=
       [("ProfileID",
         {| s_dtype := object; s_values := [Str "TP001"; Str "TP002"; Str "TP003"] |});
        ("ProfileName",
         {| s_dtype := object;
            s_values := [Str "Time Profile 1"; Str "Time Profile 2"; Str "Time Profile 3"] |});
        ("TimeUnit",
         {| s_dtype := object; s_values := [Str "DAY"; Str "WEEK"; Str "MONTH"] |});
        ("PeriodLength",
         {| s_dtype := int64; s_values := [Int 1; Int 2; Int 12] |})] |}.

(** A table with a header and no rows. *)
Definition sample_no_rows : DataFrame :=
  {| index_len := 0;
     columns := [("LocationID", {| s_dtype := object; s_values := [] |})] |}.

Definition sample_master_data : gmap string pyobj :=
  <["Products" := PyDataFrame sample_products]>
    (<["Locations" := PyDataFrame sample_no_rows]> (<["Customers" := PyOther]> ∅)).

(** [sample_products] with one more value replaced by a null. *)
Definition sample_products_nulled : DataFrame :=
  {| index_len := 4;
     columns :=
       [("ProductID",
         {| s_dtype := object;
            s_values := [Str "P000001"; NA; Str "P000003"; Str "P000003"] |});
        ("ProductCategory",
         {| s_dtype := object; s_values := [Str "RAW"; Str "FG"; NA; Str "BAD"] |});
        ("Weight", sample_weight);
        ("LastUpdated",
         {| s_dtype := datetime64;
            s_values := [Timestamp (sample_now - 10 * day); Timestamp (sample_now - 100 * day);
                         NA; Timestamp (sample_now - day)] |})] |}.


(** ** Further predicates *)

(** The issue that reports duplicate keys, with the given impact. *)
Definition duplicate_issue (impact : string) : Issue :=
  {| field := "Key fields"; issue := "Duplicate records detected"; impact := impact |}.

(** The issue that reports stale records. *)
Definition stale_issue : Issue :=
  {| field := "Last updated"; issue := "Many records not recently updated"; impact := "Medium" |}.

(** The null counts are in non-increasing order. *)
Definition by_decreasing_count (l : list (string * nat)) : Prop :=
  StronglySorted (fun a b => (snd b <= snd a)%nat) l.



(** Every value of the column [col] is null or within [-bound, bound]. *)
Definition within (data : DataFrame) (col : string) (bound : Q) : bool :=
  match get_column data col with
  | Some s => forallb (fun x => negb (cell_lt x (- bound) || cell_gt x bound)) (s_values s)
  | None => true
  end.

(** Three locations with coordinates, one latitude unknown. *)
Definition sample_locations : DataFrame :=
  {| index_len := 3;
     columns :=
       [("LocationID",
         {| s_dtype := object; s_values := [Str "L0001"; Str "L0002"; Str "L0003"] |});
        ("Latitude",
         {| s_dtype := float64; s_values := [Float 48.1; NA; Float (-33.9)] |});
        ("Longitude",
         {| s_dtype := float64; s_values := [Float 11.6; Float (-122.4); Float 151.2] |})] |}.

(** ** The pages that read the tables and the results *)

(** pages/data_health.py and pages/dashboard.py:
    [(1 - data.isnull().mean()) * 100], the completeness of every field. *)
Definition field_completeness (data : DataFrame) : list (string * Q) :=
  map (fun c => (fst c, (1 - bool_mean (map isnull (s_values (snd c)))) * 100)) (columns data).

(** app.py and pages/reports.py: the completeness shown in the data overview,
    before the report rounds it to two decimals. *)
Definition overview_completeness (data : DataFrame) : Q :=
  let record_count := index_len data in
  let field_count := length (columns data) in
  let empty_values := missing_cells data in
  let total_values := (record_count * field_count)%nat in
  if (0 <? total_values)%nat then 100 - (Qnat empty_values / Qnat total_values * 100) else 0.

(** pages/data_health.py: the percentage of missing values of the overview. *)
Definition overview_null_percentage (data : DataFrame) : Q :=
  let null_count := missing_cells data in
  let total_cells := df_size data in
  if (0 <? total_cells)%nat then (Qnat null_count / Qnat total_cells) * 100 else 0.

(** pages/dashboard.py: the scores of the selected data types, collected
    by a loop over the selection. *)
Definition dashboard_filtered_scores (quality_scores : gmap string Q)
           (selected_data_types : list string) : gmap string Q :=
  fold_left (fun filtered_scores data_type =>
               match quality_scores !! data_type with
               | Some score => <[data_type := score]> filtered_scores
               | None => filtered_scores
               end)
            selected_data_types ∅.

(** pages/reports.py: the scores of the data types of the report, by a
    dict comprehension over the scores. *)
Definition report_filtered_scores (quality_scores : gmap string Q)
           (data_types_for_report : list string) : gmap string Q :=
  filter (fun kv => fst kv ∈ data_types_for_report) quality_scores.

(** [sum(filtered_scores.values()) / len(filtered_scores)], computed
    when there are scores.  The sum runs over the entries in the order
    of the map; a sum of rationals does not depend on it. *)
Definition overall_score (filtered_scores : gmap string Q) : option Q :=
  if (size filtered_scores =? 0)%nat then None
  else Some (map_fold (fun _ score acc => acc + score) 0 filtered_scores
             / Qnat (size filtered_scores)).

(** ** The SAP connector ([utils/sap_connector.py])

    The HTTP library is a function from requests to replies; a call
    that raises (time-out, connection error) has the reply [Raised].
    Every method returns its result, the connector after the call and
    the requests it sent.  [time.time()] is read at most twice by
    [_get_auth_token]: when the cached token is checked ([now]) and
    when a new expiry is stored ([stored_at]).  A request records what
    varies between calls: the constant Content-Type and Accept headers
    and the time-out of 30 seconds are not recorded, and log messages
    are left out. *)

Record http_request := {
  method : string;
  target : string;                          (* the URL *)
  auth : string * string;                   (* user and password *)
  x_csrf_token : string;                    (* the header sent *)
  json : option (list (string * string))    (* the body of a PATCH *)
}.

Inductive http_reply :=
| Reply (status_code : Z) (csrf_token : option string)  (* status, headers.get("x-csrf-token") *)
| Raised.

Record SAPConnector := {
  url : string;
  client : string;
  username : string;
  password : string;
  token : option string;
  token_expiry : option Q
}.

(** [SAPConnector(url, client, username, password)] *)
Definition SAPConnector__init__ (url client username password : string) : SAPConnector :=
  {| url := url; client := client; username := username; password := password;
     token := None; token_expiry := None |}.

(** The truth value of an optional string: [None] and [""] are false. *)
Definition truthy (s : option string) : bool :=
  match s with
  | Some (String _ _) => true
  | _ => false
  end.

(** The truth value of an optional number: [None] and 0 are false. *)
Definition truthy_number (q : option Q) : bool :=
  match q with
  | Some x => negb (Qeq_bool x 0)
  | None => false
  end.

(** 23 hours in seconds. *)
Definition token_lifetime : Q := 23 * 60 * 60.

Definition endpoints : gmap string string :=
  list_to_map
    [("products", "/sap/opu/odata/IBP/PRODUCT_MASTER_SRV/Products");
     ("locations", "/sap/opu/odata/IBP/LOCATION_MASTER_SRV/Locations");
     ("customers", "/sap/opu/odata/IBP/CUSTOMER_MASTER_SRV/Customers");
     ("suppliers", "/sap/opu/odata/IBP/SUPPLIER_MASTER_SRV/Suppliers");
     ("time_profiles", "/sap/opu/odata/IBP/TIMEPROFILE_MASTER_SRV/TimeProfiles");
     ("resource_plans", "/sap/opu/odata/IBP/RESOURCE_MASTER_SRV/Resources")].

(** [endpoints.get(data_type)] *)
Definition _get_endpoint_for_data_type (data_type : string) : option string :=
  endpoints !! data_type.

(** [s.replace(" ", "_")] *)
Fixpoint replace_spaces (s : string) : string :=
  match s with
  | EmptyString => EmptyString
  | String c r => String (if Ascii.eqb c " " then "_"%char else c) (replace_spaces r)
  end.

(** app.py: the name under which a data type is fetched,
    [data_type.lower().replace(" ", "_")]. *)
Definition fetch_name (data_type : string) : string := replace_spaces (PyStr.lower data_type).

Section Connector.

Variable http : http_request -> http_reply.

Definition auth_request (self : SAPConnector) : http_request :=
  {| method := "GET";
     target := url self ++ "/sap/opu/odata/sap/IBPAUTHENTICATION;v=0002";
     auth := (username self ++ "@" ++ client self, password self);
     x_csrf_token := "fetch";
     json := None |}.

Definition _get_auth_token (self : SAPConnector) (now stored_at : Q)
  : option string * SAPConnector * list http_request :=
  if (truthy (token self) && truthy_number (token_expiry self) &&
      match token_expiry self with Some expiry => Qlt_bool now expiry | None => false end)%bool
  then (token self, self, [])
  else
    let request := auth_request self in
    match http request with
    | Reply status_code csrf_token =>
        if (status_code =? 200)%Z then
          if truthy csrf_token then
            (csrf_token,
             {| url := url self; client := client self; username := username self;
                password := password self;
                token := csrf_token;
                token_expiry := Some (stored_at + token_lifetime) |},
             [request])
          else (None, self, [request])
        else (None, self, [request])
    | Raised => (None, self, [request])
    end.

(** [test_connection]: whether a token is obtained. *)
Definition test_connection (self : SAPConnector) (now stored_at : Q)
  : bool * SAPConnector * list http_request :=
  let '(token, self', sent) := _get_auth_token self now stored_at in
  (match token with Some _ => true | None => false end, self', sent).

Definition patch_request (self : SAPConnector) (token record_endpoint : string)
           (corrections : list (string * string)) : http_request :=
  {| method := "PATCH";
     target := url self ++ record_endpoint;
     auth := (username self ++ "@" ++ client self, password self);
     x_csrf_token := token;
     json := Some corrections |}.

Definition submit_data_correction (self : SAPConnector) (data_type record_id : string)
           (corrections : list (string * string)) (now stored_at : Q)
  : bool * SAPConnector * list http_request :=
  let '(token, self', sent) := _get_auth_token self now stored_at in
  match token with
  | Some (String c t) =>
      match _get_endpoint_for_data_type data_type with
      | Some (String e base) =>
          let record_endpoint := String e base ++ "('" ++ record_id ++ "')" in
          let request := patch_request self' (String c t) record_endpoint corrections in
          match http request with
          | Reply status_code _ =>
              (existsb (Z.eqb status_code) [200; 201; 204]%Z, self', (sent ++ [request])%list)
          | Raised => (false, self', (sent ++ [request])%list)
          end
      | _ => (false, self', sent)
      end
  | _ => (false, self', sent)
  end.

End Connector.

(** A server that accepts the user "planner@100" and answers 204 to
    every PATCH that carries its token. *)
Definition sample_server (request : http_request) : http_reply :=
  if String.eqb (method request) "GET" then
    if String.eqb (fst (auth request)) "planner@100" then Reply 200 (Some "tok-1")
    else Reply 401 None
  else if String.eqb (x_csrf_token request) "tok-1" then Reply 204 None
  else Reply 403 None.

Definition sample_connector : SAPConnector :=
  SAPConnector__init__ "https://ibp.example" "100" "planner" "secret".
(** * Properties *)

Example lower_UpdatedAt : PyStr.lower "UpdatedAt" = "updatedat".
Proof. reflexivity. Qed.

Example contains_update : PyStr.contains "update" (PyStr.lower "UpdatedAt") = true.
Proof. reflexivity. Qed.

Example istitle_examples :
  (PyStr.istitle "Product 1", PyStr.istitle "PRODUCT 1", PyStr.istitle "product",
   PyStr.isupper "P000001", PyStr.islower "p1", PyStr.isupper "123")
  = (true, false, false, true, true, false).
Proof. reflexivity. Qed.

Example str_Z_examples : (PyStr.str_Z 0, PyStr.str_Z 1205, PyStr.str_Z (-37)) = ("0", "1205", "-37").
Proof. reflexivity. Qed.

Example format_1f_examples :
  (format_1f (25 # 2), format_1f (100 # 3), format_1f (625 # 100), format_1f 100)
  = ("12.5", "33.3", "6.2", "100.0")%string.
Proof. reflexivity. Qed.

(** 23 nulls in 80 rows: the quotient 0.2875 is not a float, the
    product is the float just below 28.75, and the text is 28.7; on the
    exact value the tie would go to the even digit 8. *)
Example float_percentage_examples :
  (format_1f (float_percentage 23 80), format_1f (Qnat 23 / Qnat 80 * 100),
   format_1f (float_percentage 1 4), format_1f (float_percentage 1 3),
   Qlt_bool (float_percentage 23 80) (Qnat 23 / Qnat 80 * 100))
  = ("28.7", "28.8", "25.0", "33.3", true)%string.
Proof. vm_compute. reflexivity. Qed.

Example latin1_examples :
  (PyStr.islower (String (ascii_of_nat 233) "t"%string),
   PyStr.lower (String (ascii_of_nat 201) "T"%string),
   PyStr.isupper (String (ascii_of_nat 215) ""%string))
  = (true, String (ascii_of_nat 233) "t"%string, false).
Proof. reflexivity. Qed.

Example quantile_examples :
  (Qred (quantile [4; 1; 3; 2] (1 # 4)), Qred (quantile [4; 1; 3; 2] (3 # 4)),
   Qred (quantile [7] (1 # 4)))
  = (7 # 4, 13 # 4, 7).
Proof. reflexivity. Qed.

(** ** Facts about rationals, means and averages *)

Lemma Qlt_bool_iff (x y : Q) : Qlt_bool x y = true <-> x < y.
Proof.
  unfold Qlt_bool. rewrite negb_true_iff. split.
  - intros H. apply Qnot_le_lt. intros Hle. apply Qle_bool_iff in Hle. congruence.
  - intros H. destruct (Qle_bool y x) eqn:E; [|reflexivity].
    apply Qle_bool_iff in E. apply Qle_not_lt in E. contradiction.
Qed.

Lemma Qlt_bool_false (x y : Q) : Qlt_bool x y = false <-> y <= x.
Proof.
  unfold Qlt_bool. rewrite negb_false_iff. apply Qle_bool_iff.
Qed.

Ltac case_Qlt :=
  match goal with
  | |- context [Qlt_bool ?a ?b] =>
      let E := fresh "E" in
      destruct (Qlt_bool a b) eqn:E;
      [apply Qlt_bool_iff in E | apply Qlt_bool_false in E]
  end.

Lemma pymin_spec (a b : Q) : pymin a b <= a /\ pymin a b <= b /\ (pymin a b == a \/ pymin a b == b).
Proof. unfold pymin. case_Qlt; repeat split; try lra; auto with qarith. Qed.

Lemma pymax_spec (a b : Q) : a <= pymax a b /\ b <= pymax a b /\ (pymax a b == a \/ pymax a b == b).
Proof. unfold pymax. case_Qlt; repeat split; try lra; auto with qarith. Qed.

Lemma pymin_Qmin (a b : Q) : pymin a b == Qmin a b.
Proof.
  unfold pymin. case_Qlt.
  - rewrite Q.min_r; lra.
  - rewrite Q.min_l; lra.
Qed.

Lemma Qnat_nonneg (n : nat) : 0 <= Qnat n.
Proof. unfold Qnat. change 0 with (inject_Z 0). rewrite <- Zle_Qle. lia. Qed.

Lemma Qnat_pos (n : nat) : (0 < n)%nat -> 0 < Qnat n.
Proof. intros H. unfold Qnat. change 0 with (inject_Z 0). rewrite <- Zlt_Qlt. lia. Qed.

Lemma Qnat_le (a b : nat) : (a <= b)%nat -> Qnat a <= Qnat b.
Proof. intros H. unfold Qnat. rewrite <- Zle_Qle. lia. Qed.

Lemma Qnat_lt (a b : nat) : (a < b)%nat -> Qnat a < Qnat b.
Proof. intros H. unfold Qnat. rewrite <- Zlt_Qlt. lia. Qed.

Lemma Qnat_inj (a b : nat) : Qnat a == Qnat b -> a = b.
Proof. unfold Qnat. rewrite inject_Z_injective. lia. Qed.

(** A count out of a total is a fraction between 0 and 1. *)
Lemma fraction_range (c n : nat) : (c <= n)%nat -> 0 <= Qnat c / Qnat n /\ Qnat c / Qnat n <= 1.
Proof.
  intros H. destruct n as [|n].
  - assert (c = O) by lia. subst c. split; vm_compute; discriminate.
  - pose proof (Qnat_pos (S n) ltac:(lia)) as Hp.
    pose proof (Qnat_nonneg c) as Hc. pose proof (Qnat_le _ _ H) as Hle. split.
    + apply Qle_shift_div_l; [assumption | lra].
    + apply Qle_shift_div_r; [assumption | lra].
Qed.

Lemma count_true_le (l : list bool) : (count_true l <= length l)%nat.
Proof. unfold count_true. apply List.filter_length_le. Qed.

Lemma bool_mean_range (l : list bool) : 0 <= bool_mean l /\ bool_mean l <= 1.
Proof. apply fraction_range, count_true_le. Qed.

Lemma percentage_of_fraction (f : Q) : 0 <= f /\ f <= 1 -> percentage (100 * f).
Proof. unfold percentage. intros [? ?]. split; lra. Qed.

Lemma percentage_of_complement (f : Q) : 0 <= f /\ f <= 1 -> percentage (100 * (1 - f)).
Proof. unfold percentage. intros [? ?]. split; lra. Qed.

Lemma Qsum_from (l : list Q) (a : Q) : fold_left Qplus l a == a + Qsum l.
Proof.
  unfold Qsum. revert a. induction l as [|x l IH]; intros a; simpl.
  - lra.
  - rewrite IH. rewrite (IH (0 + x)). lra.
Qed.

Lemma Qsum_cons (x : Q) (l : list Q) : Qsum (x :: l) == x + Qsum l.
Proof. unfold Qsum at 1. simpl. rewrite Qsum_from. lra. Qed.

Lemma Qsum_range (l : list Q) :
  Forall percentage l -> 0 <= Qsum l /\ Qsum l <= 100 * Qnat (length l).
Proof.
  induction 1 as [|x l [Hx0 Hx1] _ [IH0 IH1]].
  - split; vm_compute; discriminate.
  - rewrite Qsum_cons. change (length (x :: l)) with (S (length l)).
    assert (Qnat (S (length l)) == 1 + Qnat (length l)) as ->.
    { unfold Qnat. rewrite Nat2Z.inj_succ, <- Z.add_1_l, inject_Z_plus. reflexivity. }
    split; lra.
Qed.

(** The average of percentages is a percentage. *)
Lemma average_range (l : list Q) : Forall percentage l -> percentage (average l).
Proof.
  intros H. destruct (Qsum_range l H) as [H0 H1]. unfold percentage, average.
  destruct l as [|x l].
  - split; vm_compute; discriminate.
  - pose proof (Qnat_pos (length (x :: l)) ltac:(simpl; lia)) as Hp.
    fold (Qnat (length (x :: l))). split.
    + apply Qle_shift_div_l; [assumption | lra].
    + apply Qle_shift_div_r; [assumption | lra].
Qed.

(** ** The loop over the items of a dict *)

Lemma for_items_spec {A B : Type} (body : string -> A -> option B) (d : gmap string A) :
  match for_items body d with
  | Some results => forall k, results !! k = d !! k ≫= body k
  | None => exists k v, d !! k = Some v /\ body k v = None
  end.
Proof.
  unfold for_items.
  apply (map_fold_weak_ind
           (fun r m => match r with
                       | Some results => forall k, results !! k = m !! k ≫= body k
                       | None => exists k v, m !! k = Some v /\ body k v = None
                       end)).
  - intros k. rewrite !lookup_empty. reflexivity.
  - intros i x m r Hi IH. destruct r as [results|]; simpl.
    + destruct (body i x) as [b|] eqn:Hb; simpl.
      * intros k. destruct (decide (i = k)) as [->|Hne].
        -- rewrite !lookup_insert_eq. simpl. rewrite Hb. reflexivity.
        -- rewrite !lookup_insert_ne by assumption. apply IH.
      * exists i, x. rewrite lookup_insert_eq. auto.
    + destruct IH as (k & v & Hk & Hv). exists k, v. split; [|assumption].
      rewrite lookup_insert_ne; [assumption | congruence].
Qed.

Lemma for_items_lookup {A B : Type} (body : string -> A -> option B) (d : gmap string A) results k :
  for_items body d = Some results -> results !! k = d !! k ≫= body k.
Proof. intros H. pose proof (for_items_spec body d) as S. rewrite H in S. apply S. Qed.

Lemma for_items_total {A B : Type} (body : string -> A -> option B) (d : gmap string A) :
  (forall k v, d !! k = Some v -> is_Some (body k v)) -> is_Some (for_items body d).
Proof.
  intros H. pose proof (for_items_spec body d) as S.
  destruct (for_items body d); [eauto|].
  destruct S as (k & v & Hk & Hv). destruct (H k v Hk) as [b Hb]. congruence.
Qed.

(** ** Every dimension score is a percentage *)

Create HintDb scores.

Lemma percentage_0 : percentage 0.
Proof. unfold percentage. split; lra. Qed.

Lemma percentage_mean (l : list bool) : percentage (100 * bool_mean l).
Proof. apply percentage_of_fraction, bool_mean_range. Qed.

Lemma percentage_mean_complement (l : list bool) : percentage (100 * (1 - bool_mean l)).
Proof. apply percentage_of_complement, bool_mean_range. Qed.

Lemma percentage_clamp (x : Q) : percentage (pymax 0 (pymin 100 x)).
Proof.
  unfold percentage.
  destruct (pymax_spec 0 (pymin 100 x)) as (H0 & _ & [H|H]);
    destruct (pymin_spec 100 x) as (H1 & _ & _); split; lra.
Qed.

#[local] Hint Resolve percentage_0 percentage_mean percentage_mean_complement
  percentage_clamp average_range : scores.

Ltac percent_list :=
  repeat first
    [ apply List.Forall_nil
    | apply List.Forall_cons
    | solve [auto with scores] ].

Lemma wf_lengths (data : DataFrame) :
  wf_frame data = true ->
  List.Forall (fun c => length (s_values (snd c)) = index_len data) (columns data).
Proof.
  unfold wf_frame. intros H. apply andb_prop in H as [_ H].
  induction (columns data) as [|c l IH]; [constructor|].
  simpl in H. apply andb_prop in H as [Hc Hl]. apply andb_prop in Hc as [Hc _].
  constructor; [apply Nat.eqb_eq; assumption | apply IH; assumption].
Qed.

Lemma null_count_le (s : Series) : (null_count s <= length (s_values s))%nat.
Proof.
  unfold null_count. etransitivity; [apply count_true_le|]. rewrite length_map. reflexivity.
Qed.

Lemma missing_cells_le (data : DataFrame) :
  wf_frame data = true -> (missing_cells data <= df_size data)%nat.
Proof.
  intros H. apply wf_lengths in H. unfold missing_cells, df_size.
  induction H as [|c l Hc _ IH]; simpl; [lia|].
  pose proof (null_count_le (snd c)). lia.
Qed.

Lemma completeness_range (data : DataFrame) :
  wf_frame data = true -> percentage (_calculate_completeness data).
Proof.
  intros H. unfold _calculate_completeness.
  destruct (df_empty data); [auto with scores|].
  destruct (Nat.eqb (df_size data) 0); [auto with scores|].
  apply percentage_of_complement, fraction_range, missing_cells_le, H.
Qed.

Section Ranges.

Variable rt : runtime.

Lemma column_consistency_range (s : Series) : Forall percentage (column_consistency s).
Proof.
  unfold column_consistency.
  destruct (forallb isnull (s_values s)); [constructor|].
  apply Forall_app. split.
  - repeat match goal with |- context [if ?b then _ else _] => destruct b end;
      percent_list.
  - destruct (dtype_eqb (s_dtype s) object); [|constructor].
    destruct (0 <? length (dropna (s_values s)))%nat; [|constructor].
    pose proof (bool_mean_range (map (str_is PyStr.isupper) (dropna (s_values s)))) as Hu.
    pose proof (bool_mean_range (map (str_is PyStr.islower) (dropna (s_values s)))) as Hl.
    pose proof (bool_mean_range (map (str_is PyStr.istitle) (dropna (s_values s)))) as Ht.
    cbv zeta. case_Qlt; [|constructor].
    constructor; [|constructor].
    apply percentage_of_fraction. unfold pymax.
    repeat case_Qlt; lra.
Qed.

Lemma id_consistency_range (data : DataFrame) (col : string) :
  Forall percentage (id_consistency rt data col).
Proof.
  unfold id_consistency.
  repeat match goal with
         | |- context [if ?b then _ else _] => destruct b
         | |- context [match ?o with Some _ => _ | None => _ end] => destruct o
         end; percent_list.
Qed.

Lemma Forall_flat_map_intro {A B : Type} (P : B -> Prop) (f : A -> list B) (l : list A) :
  (forall a, Forall P (f a)) -> Forall P (flat_map f l).
Proof.
  intros H. induction l as [|a l IH]; simpl; [constructor|].
  apply Forall_app. split; [apply H | apply IH].
Qed.

Lemma consistency_range (data_type : string) (data : DataFrame) :
  percentage (_calculate_consistency rt data_type data).
Proof.
  unfold _calculate_consistency.
  destruct (df_empty data); [auto with scores|].
  assert (Forall percentage (consistency_scores rt data_type data)) as H.
  { unfold consistency_scores. apply Forall_app. split.
    - apply Forall_flat_map_intro. intros c. apply column_consistency_range.
    - repeat match goal with |- context [if ?b then _ else _] => destruct b end;
        try apply id_consistency_range; constructor. }
  destruct (consistency_scores rt data_type data) eqn:E.
  - split; lra.
  - apply average_range, H.
Qed.

Lemma future_date_check_range (now : Z) (c : string * Series) :
  Forall percentage (future_date_check now c).
Proof.
  unfold future_date_check.
  repeat match goal with |- context [if ?b then _ else _] => destruct b end;
    percent_list.
  apply percentage_of_complement. split; lra.
Qed.

Lemma allowed_values_check_range (data : DataFrame) (col : string) (allowed : list string) :
  Forall percentage (allowed_values_check data col allowed).
Proof.
  unfold allowed_values_check.
  repeat match goal with
         | |- context [if ?b then _ else _] => destruct b
         | |- context [match ?o with Some _ => _ | None => _ end] => destruct o
         end; percent_list.
Qed.

Lemma validity_range (now : Z) (data_type : string) (data : DataFrame) :
  percentage (_calculate_validity now data_type data).
Proof.
  unfold _calculate_validity.
  destruct (df_empty data); [auto with scores|].
  assert (Forall percentage (validity_scores now data_type data)) as H.
  { unfold validity_scores. apply Forall_app. split.
    - apply Forall_flat_map_intro. intros c. apply future_date_check_range.
    - repeat match goal with |- context [if ?b then _ else _] => destruct b end;
        repeat (apply Forall_app; split);
        try apply allowed_values_check_range; constructor. }
  destruct (validity_scores now data_type data) eqn:E.
  - split; lra.
  - apply average_range, H.
Qed.

Lemma drop_duplicates_length (rows : list (list cell)) :
  (length (drop_duplicates rows) <= length rows)%nat.
Proof.
  induction rows as [|r rows IH]; simpl; [lia|].
  pose proof (List.filter_length_le (fun r' => negb (row_eqb r r')) (drop_duplicates rows)).
  lia.
Qed.

Lemma key_rows_length (data : DataFrame) (key_fields : list string) :
  length (key_rows data key_fields) = index_len data.
Proof. unfold key_rows. rewrite length_map, length_seq. reflexivity. Qed.

Lemma uniqueness_range (data_type : string) (data : DataFrame) :
  percentage (_calculate_uniqueness data_type data).
Proof.
  unfold _calculate_uniqueness.
  destruct (df_empty data); [auto with scores|].
  destruct (_get_key_fields data_type data) as [|k ks]; [split; lra|].
  destruct (forallb _ _); [|split; lra].
  destruct (Nat.eqb _ _); [auto with scores|].
  apply percentage_of_fraction, fraction_range.
  rewrite <- (key_rows_length data (k :: ks)). apply drop_duplicates_length.
Qed.

Lemma timeliness_range (now : Z) (data : DataFrame) :
  percentage (_calculate_timeliness now data).
Proof.
  unfold _calculate_timeliness.
  destruct (df_empty data); [auto with scores|].
  destruct (List.filter _ _) as [|c cs]; [split; lra|].
  destruct (negb _); [split; lra | auto with scores].
Qed.

End Ranges.

(** *** Accuracy, and when the analysis returns *)

Section Accuracy.

Variable rt : runtime.

Lemma numeric_column_checks_range (s : Series) (l : list Q) :
  numeric_column_checks s = Some l -> Forall percentage l.
Proof.
  unfold numeric_column_checks.
  destruct (0 <? length (dropna (s_values s)))%nat.
  - destruct (s_dtype s); intros H; inversion H; subst; percent_list.
  - intros H. inversion H; subst. percent_list.
Qed.


Lemma products_loop_range (data : DataFrame) (cols : list string) :
  forall acc l,
    (forall a, acc = Some a -> Forall percentage a) ->
    products_loop data cols acc = Some l -> Forall percentage l.
Proof.
  induction cols as [|col cols IH]; intros acc l Hacc; simpl.
  - intros H. apply Hacc, H.
  - apply IH. intros a. destruct acc as [scores|]; simpl; [|discriminate].
    pose proof (Hacc scores eq_refl) as Hs.
    destruct (get_column data col) as [s|]; [|intros [= <-]; assumption].
    destruct (has_column data col && is_numeric_dtype (s_dtype s))%bool;
      [|intros [= <-]; assumption].
    destruct (numeric_column_checks s) as [checks|] eqn:E; simpl; [|discriminate].
    intros [= <-]. apply Forall_app. split; [assumption|].
    eapply numeric_column_checks_range, E.
Qed.


Lemma coordinate_check_range (data : DataFrame) (col : string) (bound : Q) :
  Forall percentage (coordinate_check data col bound).
Proof.
  unfold coordinate_check.
  destruct (get_column data col) as [s|]; [|constructor].
  destruct (is_numeric_dtype (s_dtype s)); percent_list.
Qed.

Lemma accuracy_scores_range (data_type : string) (data : DataFrame) (l : list Q) :
  accuracy_scores data_type data = Some l -> Forall percentage l.
Proof.
  unfold accuracy_scores.
  destruct (String.eqb data_type "Products").
  - apply (products_loop_range data numeric_columns (Some [])).
    intros a [= <-]. constructor.
  - destruct (String.eqb data_type "Locations"); intros [= <-]; [|constructor].
    unfold locations_accuracy_scores.
    destruct (forallb _ _); [|constructor].
    apply Forall_app. split; apply coordinate_check_range.
Qed.


Lemma accuracy_range (now : Z) (data_type : string) (data : DataFrame) (a : Q) :
  wf_frame data = true ->
  _calculate_accuracy rt now data_type data = Some a -> percentage a.
Proof.
  intros Hwf. unfold _calculate_accuracy.
  destruct (df_empty data); [intros [= <-]; auto with scores|].
  destruct (accuracy_scores data_type data) as [l|] eqn:E; simpl; [|discriminate].
  pose proof (accuracy_scores_range _ _ _ E) as Hl.
  destruct l as [|x l]; intros [= <-].
  - pose proof (completeness_range data Hwf) as [? ?].
    pose proof (consistency_range rt data_type data) as [? ?].
    pose proof (validity_range now data_type data) as [? ?].
    unfold percentage, pymin. case_Qlt; split; lra.
  - apply average_range, Hl.
Qed.



End Accuracy.

Lemma analyze_for_type_range (rt : runtime) (now : Z) (data_type : string) (data : DataFrame) m :
  wf_frame data = true ->
  analyze_data_health_for_type rt now data_type data = Some m -> metrics_in_range m.
Proof.
  intros Hwf. unfold analyze_data_health_for_type.
  destruct (_calculate_accuracy rt now data_type data) as [a|] eqn:E; simpl; [|discriminate].
  intros [= <-]. unfold metrics_in_range. simpl.
  repeat split;
    try apply (completeness_range data Hwf);
    try apply (consistency_range rt data_type data);
    try apply (validity_range now data_type data);
    try apply (uniqueness_range data_type data);
    try apply (timeliness_range now data);
    apply (accuracy_range rt now data_type data a Hwf E).
Qed.

Lemma weighted_score_eq (m : Metrics) :
  weighted_score m ==
  0.25 * (completeness m / 10) + 0.2 * (consistency m / 10) + 0.2 * (validity m / 10) +
  0.15 * (uniqueness m / 10) + 0.1 * (timeliness m / 10) + 0.1 * (accuracy m / 10).
Proof. unfold weighted_score. simpl. lra. Qed.

Lemma weighted_score_range (m : Metrics) :
  metrics_in_range m -> 0 <= weighted_score m /\ weighted_score m <= 10.
Proof.
  intros ([? ?] & [? ?] & [? ?] & [? ?] & [? ?] & [? ?]).
  rewrite weighted_score_eq.
  assert (forall x, x / 10 == x * (1 # 10)) as E by (intros x; field).
  rewrite !E. split; lra.
Qed.

(** ** The entry points, item by item *)

Lemma has_data_Some (data : pyobj) (df : DataFrame) :
  has_data data = Some df <-> data = PyDataFrame df /\ df_empty df = false.
Proof.
  unfold has_data. destruct data as [d|].
  - destruct (df_empty d) eqn:E; simpl; split.
    + discriminate.
    + intros [[= ->] H]. congruence.
    + intros [= ->]. auto.
    + intros [[= ->] _]. reflexivity.
  - split; [discriminate | intros [? _]; discriminate].
Qed.

Lemma analyze_data_health_lookup (rt : runtime) (now : Z) (self : DataQualityAnalyzer) health name :
  analyze_data_health rt now self = Some health ->
  health !! name = master_data self !! name ≫= data_health rt now name.
Proof. apply for_items_lookup. Qed.

Lemma calculate_quality_scores_lookup (rt : runtime) (now : Z) (self : DataQualityAnalyzer)
      scores name :
  calculate_quality_scores rt now self = Some scores ->
  scores !! name = master_data self !! name ≫= quality_score rt now name.
Proof. apply for_items_lookup. Qed.

Lemma no_data_metrics_in_range : metrics_in_range no_data_metrics.
Proof. unfold metrics_in_range. simpl. repeat split; lra. Qed.

Lemma data_health_range (rt : runtime) (now : Z) (name : string) (data : pyobj) (m : Metrics) :
  match data with PyDataFrame df => wf_frame df = true | PyOther => True end ->
  data_health rt now name data = Some m -> metrics_in_range m.
Proof.
  intros Hwf. unfold data_health. destruct (has_data data) as [df|] eqn:E.
  - apply has_data_Some in E as [-> _]. apply analyze_for_type_range, Hwf.
  - intros [= <-]. apply no_data_metrics_in_range.
Qed.

Lemma quality_score_range (rt : runtime) (now : Z) (name : string) (data : pyobj) (s : Q) :
  match data with PyDataFrame df => wf_frame df = true | PyOther => True end ->
  quality_score rt now name data = Some s -> 0 <= s /\ s <= 10.
Proof.
  intros Hwf. unfold quality_score. destruct (has_data data) as [df|] eqn:E.
  - apply has_data_Some in E as [-> _].
    destruct (analyze_data_health_for_type rt now name df) as [m|] eqn:Hm; simpl; [|discriminate].
    intros [= <-]. apply analyze_for_type_range in Hm; [|assumption].
    destruct (weighted_score_range m Hm) as [H0 H1].
    unfold pymin. case_Qlt; split; lra.
  - intros [= <-]. split; lra.
Qed.

(** ** C1: score ranges *)

(** C1.  For every mapping of dataset-type names to well-formed tables,
    each of the six dimension scores that [analyze_data_health] returns
    lies in [0,100], and each aggregate score that
    [calculate_quality_scores] returns lies in [0,10]. *)
Theorem scores_in_range (rt : runtime) (now : Z) (self : DataQualityAnalyzer)
        (Hwf : wf_master_data (master_data self)) :
  (forall health name m,
      analyze_data_health rt now self = Some health ->
      health !! name = Some m -> metrics_in_range m) /\
  (forall scores name s,
      calculate_quality_scores rt now self = Some scores ->
      scores !! name = Some s -> 0 <= s /\ s <= 10).
Proof.
  split.
  - intros health name m Hh Hm.
    rewrite (analyze_data_health_lookup _ _ _ _ name Hh) in Hm.
    destruct (master_data self !! name) as [data|] eqn:Hd; simpl in Hm; [|discriminate].
    eapply data_health_range; [|exact Hm]. apply (Hwf name data Hd).
  - intros scores name s Hs Hn.
    rewrite (calculate_quality_scores_lookup _ _ _ _ name Hs) in Hn.
    destruct (master_data self !! name) as [data|] eqn:Hd; simpl in Hn; [|discriminate].
    eapply quality_score_range; [|exact Hn]. apply (Hwf name data Hd).
Qed.

Lemma sample_master_data_wf : wf_master_data sample_master_data.
Proof.
  unfold wf_master_data, sample_master_data.
  apply map_Forall_insert_2; [reflexivity|].
  apply map_Forall_insert_2; [reflexivity|].
  apply map_Forall_insert_2; [exact I|].
  apply map_Forall_empty.
Qed.

Lemma scores_in_range_witness :
  wf_master_data (master_data (__init__ sample_master_data)) /\
  exists health m scores s,
    analyze_data_health sample_runtime sample_now (__init__ sample_master_data) = Some health /\
    health !! "Products" = Some m /\ metrics_in_range m /\
    calculate_quality_scores sample_runtime sample_now (__init__ sample_master_data)
      = Some scores /\
    scores !! "Products" = Some s /\ 0 <= s /\ s <= 10.
Proof.
  split; [exact sample_master_data_wf|].
  set (self := __init__ sample_master_data).
  destruct (analyze_data_health sample_runtime sample_now self)
    as [health|] eqn:Eh; [|vm_compute in Eh; discriminate].
  destruct (calculate_quality_scores sample_runtime sample_now self)
    as [scores|] eqn:Es; [|vm_compute in Es; discriminate].
  pose proof (analyze_data_health_lookup _ _ _ _ "Products" Eh) as Lh.
  pose proof (calculate_quality_scores_lookup _ _ _ _ "Products" Es) as Ls.
  destruct (health !! "Products") as [m|] eqn:Em; [|vm_compute in Lh; discriminate].
  destruct (scores !! "Products") as [s|] eqn:En; [|vm_compute in Ls; discriminate].
  destruct (scores_in_range sample_runtime sample_now self sample_master_data_wf) as [H1 H2].
  exists health, m, scores, s.
  split; [reflexivity|]. split; [exact Em|].
  split; [exact (H1 health "Products" m Eh Em)|].
  split; [reflexivity|]. split; [exact En|].
  exact (H2 scores "Products" s Es En).
Defined.

(** ** C3: datasets without data *)

Lemma zero_rows_or_missing_no_data (data : pyobj) :
  zero_rows_or_missing data -> has_data data = None.
Proof.
  destruct data as [df|]; simpl; [|reflexivity].
  intros H. unfold df_empty. rewrite H. reflexivity.
Qed.

(** C3.  For a dataset that has zero rows or is not a table, the report
    has all six dimension scores equal to 0 and exactly one issue, with
    field "all", text "No data available" and impact "High"; its
    aggregate score is 0.  The loop body returns these for the dataset,
    and they are the entries of the two results whenever the runs over
    the whole mapping return. *)
Theorem no_data_report (rt : runtime) (now : Z) (self : DataQualityAnalyzer)
        (name : string) (data : pyobj)
        (Hname : master_data self !! name = Some data)
        (Hnone : zero_rows_or_missing data) :
  let report :=
    {| completeness := 0; consistency := 0; validity := 0;
       uniqueness := 0; timeliness := 0; accuracy := 0;
       issues := [{| field := "all"; issue := "No data available"; impact := "High" |}] |} in
  data_health rt now name data = Some report /\
  quality_score rt now name data = Some 0 /\
  (forall health, analyze_data_health rt now self = Some health ->
                  health !! name = Some report) /\
  (forall scores, calculate_quality_scores rt now self = Some scores ->
                  scores !! name = Some 0).
Proof.
  intros report. pose proof (zero_rows_or_missing_no_data data Hnone) as E.
  assert (data_health rt now name data = Some report) as Hd
      by (unfold data_health; rewrite E; reflexivity).
  assert (quality_score rt now name data = Some 0) as Hq
      by (unfold quality_score; rewrite E; reflexivity).
  repeat split; try assumption.
  - intros health Hh. rewrite (analyze_data_health_lookup _ _ _ _ name Hh), Hname. exact Hd.
  - intros scores Hs. rewrite (calculate_quality_scores_lookup _ _ _ _ name Hs), Hname. exact Hq.
Qed.

Lemma no_data_report_witness :
  exists health scores,
    analyze_data_health sample_runtime sample_now (__init__ sample_master_data) = Some health /\
    calculate_quality_scores sample_runtime sample_now (__init__ sample_master_data)
      = Some scores /\
    health !! "Locations" = Some no_data_metrics /\ scores !! "Locations" = Some 0 /\
    health !! "Customers" = Some no_data_metrics /\ scores !! "Customers" = Some 0.
Proof.
  set (self := __init__ sample_master_data).
  destruct (analyze_data_health sample_runtime sample_now self)
    as [health|] eqn:Eh; [|vm_compute in Eh; discriminate].
  destruct (calculate_quality_scores sample_runtime sample_now self)
    as [scores|] eqn:Es; [|vm_compute in Es; discriminate].
  assert (master_data self !! "Locations" = Some (PyDataFrame sample_no_rows)) as HL
      by reflexivity.
  assert (master_data self !! "Customers" = Some PyOther) as HC by reflexivity.
  destruct (no_data_report sample_runtime sample_now self "Locations" _ HL eq_refl)
    as (_ & _ & L1 & L2).
  destruct (no_data_report sample_runtime sample_now self "Customers" _ HC I)
    as (_ & _ & C1 & C2).
  exists health, scores.
  split; [reflexivity|]. split; [reflexivity|].
  split; [exact (L1 health Eh)|]. split; [exact (L2 scores Es)|].
  split; [exact (C1 health Eh) | exact (C2 scores Es)].
Defined.

(** ** C2: the aggregate score *)




(** ** C9: completeness and nulls *)

Lemma nullified_null_count (l l' : list cell) :
  Forall2 (fun x x' => x' = x \/ x' = NA) l l' ->
  (count_true (map isnull l) <= count_true (map isnull l'))%nat.
Proof.
  unfold count_true. induction 1 as [|x x' l l' [-> | ->] _ IH]; simpl.
  - lia.
  - destruct (isnull x); simpl; lia.
  - destruct (isnull x); simpl; lia.
Qed.

Lemma nullified_missing_cells (cols cols' : list (string * Series)) :
  Forall2 (fun c c' =>
             fst c' = fst c /\
             Forall2 (fun x x' => x' = x \/ x' = NA) (s_values (snd c)) (s_values (snd c')))
          cols cols' ->
  (fold_right (fun c acc => null_count (snd c) + acc) 0 cols
   <= fold_right (fun c acc => null_count (snd c) + acc) 0 cols')%nat.
Proof.
  induction 1 as [|c c' l l' [_ Hc] _ IH]; simpl; [lia|].
  pose proof (nullified_null_count _ _ Hc) as Hx.
  unfold null_count, count_true in *. lia.
Qed.

(** C9.  Replacing cells of a table by nulls, all else equal, never
    increases the completeness score. *)
Theorem completeness_monotone (data data' : DataFrame) (Hnull : nullified data data') :
  _calculate_completeness data' <= _calculate_completeness data.
Proof.
  destruct Hnull as [Hlen Hcols].
  pose proof (Forall2_length _ _ _ Hcols) as Hn.
  pose proof (nullified_missing_cells _ _ Hcols) as Hm.
  unfold _calculate_completeness, df_empty, df_size, missing_cells.
  rewrite Hlen, <- Hn.
  destruct (Nat.eqb (index_len data) 0 || Nat.eqb (length (columns data)) 0)%bool; [lra|].
  destruct (Nat.eqb (index_len data * length (columns data)) 0) eqn:E; [lra|].
  apply Nat.eqb_neq in E.
  set (t := (index_len data * length (columns data))%nat) in *.
  pose proof (Qnat_pos t ltac:(lia)) as Ht.
  apply Qnat_le in Hm.
  set (a := Qnat (fold_right _ _ (columns data))) in *.
  set (b := Qnat (fold_right _ _ (columns data'))) in *.
  assert (a / Qnat t <= b / Qnat t).
  { apply Qle_shift_div_l; [assumption|].
    unfold Qdiv. rewrite <- Qmult_assoc, (Qmult_comm (/ Qnat t)), Qmult_inv_r; lra. }
  lra.
Qed.

Lemma completeness_monotone_witness :
  nullified sample_products sample_products_nulled /\
  _calculate_completeness sample_products_nulled <= _calculate_completeness sample_products.
Proof.
  assert (nullified sample_products sample_products_nulled) as H.
  { split; [reflexivity|]. unfold sample_products, sample_products_nulled. simpl.
    repeat first [ apply List.Forall2_nil
                 | apply List.Forall2_cons
                 | split
                 | reflexivity
                 | left; reflexivity
                 | right; reflexivity ]. }
  split; [exact H | exact (completeness_monotone _ _ H)].
Defined.

(** ** C6: timeliness *)

Lemma filter_first {A : Type} (f : A -> bool) (pre post : list A) (c : A) :
  (forall x, In x pre -> f x = false) -> f c = true ->
  List.filter f (pre ++ c :: post) = c :: List.filter f post.
Proof.
  intros Hpre Hc. induction pre as [|x pre IH]; simpl.
  - rewrite Hc. reflexivity.
  - rewrite (Hpre x (or_introl eq_refl)). apply IH. intros y Hy. apply Hpre. right. exact Hy.
Qed.

Lemma filter_none {A : Type} (f : A -> bool) (l : list A) :
  (forall x, In x l -> f x = false) -> List.filter f l = [].
Proof.
  intros H. induction l as [|x l IH]; simpl; [reflexivity|].
  rewrite (H x (or_introl eq_refl)). apply IH. intros y Hy. apply H. right. exact Hy.
Qed.

Lemma count_true_map {A : Type} (f : A -> bool) (l : list A) :
  count_true (map f l) = length (List.filter f l).
Proof.
  unfold count_true. induction l as [|x l IH]; simpl; [reflexivity|].
  destruct (f x); simpl; rewrite IH; reflexivity.
Qed.

Lemma recent_rows_count (now : Z) (s : Series) :
  count_true (map (fun x => ts_ge x (now - days_90)) (s_values s)) = recent_rows now s.
Proof. rewrite count_true_map. reflexivity. Qed.

Lemma future_rows_count (now : Z) (s : Series) :
  count_true (map (fun x => ts_gt x now) (s_values s)) = future_rows now s.
Proof. rewrite count_true_map. reflexivity. Qed.

Lemma dtype_eqb_eq (a b : dtype) : dtype_eqb a b = true <-> a = b.
Proof. destruct a, b; simpl; split; congruence. Qed.

Lemma wf_column_length (data : DataFrame) (c : string * Series) :
  wf_frame data = true -> In c (columns data) -> length (s_values (snd c)) = index_len data.
Proof.
  intros Hwf Hin. apply wf_lengths in Hwf.
  rewrite List.Forall_forall in Hwf. apply Hwf, Hin.
Qed.

(** The score of a table whose first column with a timestamp name is [c]. *)
Lemma timeliness_first_column (now : Z) (data : DataFrame) pre c post :
  df_empty data = false ->
  columns data = (pre ++ c :: post)%list ->
  (forall c', In c' pre -> is_timestamp_name (fst c') = false) ->
  is_timestamp_name (fst c) = true ->
  _calculate_timeliness now data =
  if negb (is_datetime (s_dtype (snd c))) then 85
  else 100 * (Qnat (recent_rows now (snd c)) / Qnat (length (s_values (snd c)))).
Proof.
  intros Hne Hcols Hpre Hc. unfold _calculate_timeliness. rewrite Hne.
  change (List.filter _ (columns data))
    with (List.filter (fun c => is_timestamp_name (fst c)) (columns data)).
  rewrite Hcols.
  rewrite (filter_first (fun c => is_timestamp_name (fst c)) pre post c Hpre Hc).
  destruct (negb (is_datetime (s_dtype (snd c)))); [reflexivity|].
  unfold bool_mean. rewrite recent_rows_count, length_map. reflexivity.
Qed.

(** C6.  For a non-empty table: when no column name contains "update",
    "modified", "change" or "timestamp", timeliness is 85; otherwise the
    first such column decides: timeliness is 85 when it is not
    datetime-typed, and else 100 times the number of rows whose value is
    at or after now minus 90 days, divided by the number of rows.  With
    3 such rows out of 10 the score is 30. *)
Theorem timeliness_rule (now : Z) (data : DataFrame)
        (Hne : df_empty data = false) (Hwf : wf_frame data = true) :
  ((forall c, In c (columns data) -> is_timestamp_name (fst c) = false) ->
   _calculate_timeliness now data = 85) /\
  (forall pre c post,
      columns data = (pre ++ c :: post)%list ->
      (forall c', In c' pre -> is_timestamp_name (fst c') = false) ->
      is_timestamp_name (fst c) = true ->
      (s_dtype (snd c) <> datetime64 -> _calculate_timeliness now data = 85) /\
      (s_dtype (snd c) = datetime64 ->
       _calculate_timeliness now data
       == 100 * (Qnat (recent_rows now (snd c)) / Qnat (index_len data)) /\
       (index_len data = 10%nat -> recent_rows now (snd c) = 3%nat ->
        _calculate_timeliness now data == 30))).
Proof.
  split.
  - intros Hnone. unfold _calculate_timeliness. rewrite Hne.
    change (List.filter _ (columns data))
      with (List.filter (fun c => is_timestamp_name (fst c)) (columns data)).
    rewrite (filter_none (fun c => is_timestamp_name (fst c)) _ Hnone). reflexivity.
  - intros pre c post Hcols Hpre Hc.
    pose proof (timeliness_first_column now data pre c post Hne Hcols Hpre Hc) as E.
    assert (In c (columns data)) as Hin by (rewrite Hcols; apply in_elt).
    pose proof (wf_column_length data c Hwf Hin) as Hlen.
    split.
    + intros Hd. rewrite E.
      destruct (is_datetime (s_dtype (snd c))) eqn:D; [|reflexivity].
      apply dtype_eqb_eq in D. contradiction.
    + intros Hd. rewrite E, Hd, Hlen. simpl. split; [reflexivity|].
      intros H10 H3. rewrite H10, H3. reflexivity.
Qed.

Example UpdatedAt_is_timestamp_name : is_timestamp_name "UpdatedAt" = true.
Proof. reflexivity. Qed.

Lemma timeliness_rule_witness :
  df_empty sample_updates = false /\ wf_frame sample_updates = true /\
  index_len sample_updates = 10%nat /\ recent_rows sample_now sample_updated_at = 3%nat /\
  _calculate_timeliness sample_now sample_updates == 30.
Proof.
  split; [reflexivity|]. split; [reflexivity|]. split; [reflexivity|]. split; [reflexivity|].
  destruct (timeliness_rule sample_now sample_updates eq_refl eq_refl) as [_ H].
  destruct (H [("ID", sample_ids)] ("UpdatedAt", sample_updated_at) [] eq_refl) as [_ H30].
  - intros c' [<- | []]. reflexivity.
  - reflexivity.
  - apply (H30 eq_refl); reflexivity.
Defined.

(** ** C10: the clock is the only input besides the tables *)

(** The same table read 200 days apart: the results differ. *)
Lemma clock_dependence_counterexample :
  analyze_data_health sample_runtime sample_now (__init__ sample_master_data)
  <> analyze_data_health sample_runtime (sample_now + 200 * day) (__init__ sample_master_data) /\
  calculate_quality_scores sample_runtime sample_now (__init__ sample_master_data)
  <> calculate_quality_scores sample_runtime (sample_now + 200 * day)
       (__init__ sample_master_data).
Proof.
  split; intros H.
  - apply (f_equal (fun r : option (gmap string Metrics) =>
                      h ← r; m ← h !! "Products"; Some (Qred (timeliness m)))) in H.
    vm_compute in H. discriminate.
  - apply (f_equal (fun r : option (gmap string Q) =>
                      h ← r; s ← h !! "Products"; Some (Qred s))) in H.
    vm_compute in H. discriminate.
Qed.

Lemma for_items_ext {A B : Type} (body1 body2 : string -> A -> option B) (d : gmap string A) :
  (forall k v, d !! k = Some v -> body1 k v = body2 k v) ->
  for_items body1 d = for_items body2 d.
Proof.
  intros H. unfold for_items. rewrite !map_fold_foldr.
  assert (forall kv, kv ∈ map_to_list d -> body1 kv.1 kv.2 = body2 kv.1 kv.2) as Hin.
  { intros [k v] Hkv. apply H, elem_of_map_to_list, Hkv. }
  induction (map_to_list d) as [|[k v] l IH]; simpl; [reflexivity|].
  assert (body1 k v = body2 k v) as Hkv by (apply (Hin (k, v)); constructor).
  rewrite IH, Hkv; [reflexivity|].
  intros kv Hin'. apply Hin. constructor. exact Hin'.
Qed.

Lemma map_same_side (f : Z -> cell -> bool) (now1 now2 : Z) (l : list cell) :
  Forall (fun x => f now1 x = f now2 x) l -> map (f now1) l = map (f now2) l.
Proof. induction 1 as [|x l Hx _ IH]; simpl; [reflexivity|]. rewrite Hx, IH. reflexivity. Qed.

Lemma future_date_check_same_side (now1 now2 : Z) (c : string * Series) :
  Forall (same_side now1 now2) (s_values (snd c)) ->
  future_date_check now1 c = future_date_check now2 c.
Proof.
  intros H. unfold future_date_check.
  rewrite (map_same_side (fun now x => ts_gt x now) now1 now2); [reflexivity|].
  eapply List.Forall_impl; [|exact H]. intros x [Hx _]. exact Hx.
Qed.

Section Clock.

Variable rt : runtime.
Variables now1 now2 : Z.
Variable data : DataFrame.
Hypothesis Hside : frame_same_side now1 now2 data.

Lemma validity_same_side (data_type : string) :
  _calculate_validity now1 data_type data = _calculate_validity now2 data_type data.
Proof.
  unfold _calculate_validity, validity_scores.
  assert (forall (f : string * Series -> bool),
             flat_map (future_date_check now1) (List.filter f (columns data))
             = flat_map (future_date_check now2) (List.filter f (columns data))) as E.
  { intros f. pose proof Hside as HS. unfold frame_same_side in HS.
    revert HS. generalize (columns data). intros cols HS.
    induction HS as [|c l Hc _ IH]; simpl; [reflexivity|].
    destruct (f c); simpl; [|exact IH].
    rewrite IH, (future_date_check_same_side now1 now2 c Hc). reflexivity. }
  rewrite E. reflexivity.
Qed.

Lemma timeliness_same_side :
  _calculate_timeliness now1 data = _calculate_timeliness now2 data.
Proof.
  unfold _calculate_timeliness.
  destruct (df_empty data); [reflexivity|].
  destruct (List.filter _ (columns data)) as [|c cs] eqn:E; [reflexivity|].
  assert (In c (columns data)) as Hin.
  { eapply proj1. apply List.filter_In. rewrite E. left. reflexivity. }
  destruct (negb (is_datetime (s_dtype (snd c)))); [reflexivity|].
  pose proof Hside as HS. unfold frame_same_side in HS. rewrite List.Forall_forall in HS.
  rewrite (map_same_side (fun now x => ts_ge x (now - days_90)) now1 now2); [reflexivity|].
  eapply List.Forall_impl; [|exact (HS c Hin)]. intros x [_ Hx]. exact Hx.
Qed.

Lemma accuracy_same_side (data_type : string) :
  _calculate_accuracy rt now1 data_type data = _calculate_accuracy rt now2 data_type data.
Proof. unfold _calculate_accuracy. rewrite validity_same_side. reflexivity. Qed.

Lemma analyze_same_side (data_type : string) :
  analyze_data_health_for_type rt now1 data_type data
  = analyze_data_health_for_type rt now2 data_type data.
Proof.
  unfold analyze_data_health_for_type.
  rewrite validity_same_side, timeliness_same_side, accuracy_same_side. reflexivity.
Qed.

End Clock.

(** C10 (amended).  The results are a function of the tables and of the
    clock reading: two runs whose clock readings place every timestamp
    of the tables on the same side of "now" and of "now minus 90 days"
    return identical scores and identical issue lists. *)
Theorem deterministic_up_to_clock (rt : runtime) (now1 now2 : Z) (self : DataQualityAnalyzer)
        (Hclock : clocks_agree_on now1 now2 (master_data self)) :
  analyze_data_health rt now1 self = analyze_data_health rt now2 self /\
  calculate_quality_scores rt now1 self = calculate_quality_scores rt now2 self.
Proof.
  assert (forall k v, master_data self !! k = Some v ->
                      forall df, has_data v = Some df -> frame_same_side now1 now2 df) as H.
  { intros k v Hk df Hdf. apply has_data_Some in Hdf as [-> _]. exact (Hclock k _ Hk). }
  split; apply for_items_ext; intros k v Hk.
  - unfold data_health. destruct (has_data v) as [df|] eqn:E; [|reflexivity].
    apply analyze_same_side, (H k v Hk df E).
  - unfold quality_score. destruct (has_data v) as [df|] eqn:E; [|reflexivity].
    rewrite (analyze_same_side rt now1 now2 df (H k v Hk df E)). reflexivity.
Qed.

Lemma sample_clocks_agree : clocks_agree_on sample_now (sample_now + day) sample_master_data.
Proof.
  unfold clocks_agree_on, sample_master_data.
  apply map_Forall_insert_2.
  - unfold frame_same_side, sample_products. simpl.
    repeat first [ apply List.Forall_nil | apply List.Forall_cons | split | reflexivity ].
  - apply map_Forall_insert_2; [apply List.Forall_cons; constructor|].
    apply map_Forall_insert_2; [exact I | apply map_Forall_empty].
Qed.

Lemma deterministic_up_to_clock_witness :
  clocks_agree_on sample_now (sample_now + day) (master_data (__init__ sample_master_data)) /\
  analyze_data_health sample_runtime sample_now (__init__ sample_master_data)
  = analyze_data_health sample_runtime (sample_now + day) (__init__ sample_master_data) /\
  is_Some (analyze_data_health sample_runtime sample_now (__init__ sample_master_data)).
Proof.
  split; [exact sample_clocks_agree|]. split.
  - exact (proj1 (deterministic_up_to_clock sample_runtime sample_now (sample_now + day)
                    (__init__ sample_master_data) sample_clocks_agree)).
  - destruct (analyze_data_health sample_runtime sample_now (__init__ sample_master_data))
      eqn:E; [eexists; reflexivity | vm_compute in E; discriminate].
Defined.

(** ** C8: the estimated accuracy *)






(** ** C4: uniqueness *)

Lemma cell_eqb_refl (c : cell) : cell_eqb c c = true.
Proof.
  destruct c; simpl; auto using Z.eqb_refl, String.eqb_refl, Bool.eqb_reflx.
  apply Qeq_bool_iff. reflexivity.
Qed.

Lemma cell_eqb_sym (a b : cell) : cell_eqb a b = cell_eqb b a.
Proof.
  destruct a, b; simpl; auto using Z.eqb_sym, String.eqb_sym.
  - destruct (Qeq_bool q q0) eqn:E1, (Qeq_bool q0 q) eqn:E2; auto.
    + apply Qeq_bool_iff in E1. symmetry in E1. apply Qeq_bool_iff in E1. congruence.
    + apply Qeq_bool_iff in E2. symmetry in E2. apply Qeq_bool_iff in E2. congruence.
  - destruct b0, b; reflexivity.
Qed.

Lemma row_eqb_refl (r : list cell) : row_eqb r r = true.
Proof. induction r as [|c r IH]; simpl; [reflexivity|]. rewrite cell_eqb_refl, IH. reflexivity. Qed.

Lemma row_eqb_sym (a b : list cell) : row_eqb a b = row_eqb b a.
Proof.
  revert b. induction a as [|x a IH]; intros [|y b]; simpl; try reflexivity.
  rewrite cell_eqb_sym, IH. reflexivity.
Qed.

Lemma filter_all {A : Type} (f : A -> bool) (l : list A) :
  forallb f l = true -> List.filter f l = l.
Proof.
  induction l as [|x l IH]; simpl; [reflexivity|].
  intros H. apply andb_prop in H as [Hx Hl]. rewrite Hx, IH; auto.
Qed.

Lemma filter_length_all {A : Type} (f : A -> bool) (l : list A) :
  length (List.filter f l) = length l -> forallb f l = true.
Proof.
  induction l as [|x l IH]; simpl; [reflexivity|].
  pose proof (List.filter_length_le f l) as Hle.
  destruct (f x); simpl; intros H; [apply IH; lia | lia].
Qed.

Lemma all_distinct_drop_duplicates (rows : list (list cell)) :
  all_distinct rows = true -> drop_duplicates rows = rows.
Proof.
  induction rows as [|r rows IH]; simpl; [reflexivity|].
  intros H. apply andb_prop in H as [Hr Hrows].
  rewrite (IH Hrows), (filter_all _ _ Hr). reflexivity.
Qed.

(** The rows are all kept exactly when no two of them are equal. *)
Lemma drop_duplicates_length_iff (rows : list (list cell)) :
  length (drop_duplicates rows) = length rows <-> all_distinct rows = true.
Proof.
  split.
  - induction rows as [|r rows IH]; simpl; [reflexivity|].
    pose proof (drop_duplicates_length rows) as Hle.
    pose proof (List.filter_length_le (fun r' => negb (row_eqb r r')) (drop_duplicates rows))
      as Hf.
    intros H.
    assert (length (drop_duplicates rows) = length rows) as Hd by lia.
    pose proof (IH Hd) as Hall. rewrite Hall, andb_true_r.
    rewrite (all_distinct_drop_duplicates rows Hall) in H.
    apply filter_length_all. lia.
  - intros H. rewrite (all_distinct_drop_duplicates rows H). reflexivity.
Qed.

Lemma drop_duplicates_In (rows : list (list cell)) (r : list cell) :
  In r (drop_duplicates rows) -> In r rows.
Proof.
  revert r. induction rows as [|x rows IH]; simpl; [auto|].
  intros r [-> | H]; [auto|]. apply List.filter_In in H as [H _]. right. apply IH, H.
Qed.

Lemma forallb_In {A : Type} (f : A -> bool) (l : list A) (x : A) :
  forallb f l = true -> In x l -> f x = true.
Proof. intros H Hin. rewrite List.forallb_forall in H. apply H, Hin. Qed.

(** Removing the row [x] from distinct rows that contain it. *)
Lemma filter_out_one (x : list cell) (rows : list (list cell)) :
  all_distinct rows = true -> In x rows ->
  S (length (List.filter (fun r' => negb (row_eqb x r')) rows)) = length rows.
Proof.
  induction rows as [|y rows IH]; simpl; [contradiction|].
  intros H Hin. apply andb_prop in H as [Hy Hrows]. destruct Hin as [-> | Hin].
  - rewrite row_eqb_refl. simpl. rewrite (filter_all _ _ Hy). reflexivity.
  - pose proof (forallb_In _ _ _ Hy Hin) as Hyx. simpl in Hyx.
    rewrite row_eqb_sym in Hyx. rewrite Hyx. simpl. rewrite (IH Hrows Hin). reflexivity.
Qed.

Lemma all_distinct_move (y : list cell) (a b : list (list cell)) :
  all_distinct (y :: a ++ b) = true -> all_distinct (a ++ y :: b) = true.
Proof.
  induction a as [|z a IH]; [auto|].
  simpl. intros H.
  apply andb_prop in H as [Hy H]. apply andb_prop in Hy as [Hyz Hy].
  apply andb_prop in H as [Hz H].
  apply andb_true_intro. split.
  - rewrite List.forallb_app in *. apply andb_prop in Hz as [Hza Hzb].
    rewrite Hza. simpl. rewrite row_eqb_sym, Hyz, Hzb. reflexivity.
  - apply IH. simpl. rewrite Hy, H. reflexivity.
Qed.

(** One more copy of a row among otherwise distinct rows is dropped. *)
Lemma drop_duplicates_one_copy (a b : list (list cell)) (x : list cell) :
  all_distinct (a ++ b) = true -> In x (a ++ b) ->
  length (drop_duplicates (a ++ x :: b)) = length (a ++ b).
Proof.
  revert x b. induction a as [|y a IH]; intros x b Hall Hin.
  - simpl in *. rewrite (all_distinct_drop_duplicates b Hall).
    apply filter_out_one; assumption.
  - simpl in Hall. apply andb_prop in Hall as [Hy Hall].
    simpl. f_equal. destruct Hin as [<- | Hin].
    + assert (all_distinct (a ++ y :: b) = true) as Hmove.
      { apply all_distinct_move. simpl. rewrite Hy, Hall. reflexivity. }
      rewrite (all_distinct_drop_duplicates _ Hmove).
      rewrite List.filter_app. simpl. rewrite row_eqb_refl. simpl.
      rewrite <- List.filter_app, (filter_all _ _ Hy). reflexivity.
    + rewrite filter_all; [apply IH; assumption|].
      apply List.forallb_forall. intros r Hr. apply drop_duplicates_In in Hr.
      apply (forallb_In _ (a ++ b) r Hy).
      apply List.in_app_or in Hr as [Hr | [<- | Hr]]; auto using List.in_or_app.
Qed.

Lemma has_column_In (data : DataFrame) (col : string) :
  In col (map fst (columns data)) -> has_column data col = true.
Proof.
  unfold has_column. intros H. apply List.existsb_exists.
  apply List.in_map_iff in H as (c & <- & Hc). exists c. split; [exact Hc|].
  apply String.eqb_refl.
Qed.

(** The key fields that [_get_key_fields] returns are columns of the table. *)
Lemma get_key_fields_present (data_type : string) (data : DataFrame) :
  forallb (has_column data) (_get_key_fields data_type data) = true.
Proof.
  unfold _get_key_fields. apply List.forallb_forall. intros k Hk.
  destruct (key_mapping !! data_type) as [keys|].
  - apply List.filter_In in Hk as [_ Hk]. exact Hk.
  - apply has_column_In.
    destruct (List.filter looks_like_id (map fst (columns data))) as [|x l] eqn:E;
      simpl in Hk; [contradiction|].
    destruct Hk as [<- | []].
    assert (In x (List.filter looks_like_id (map fst (columns data)))) as Hin
        by (rewrite E; left; reflexivity).
    apply List.filter_In in Hin as [Hin _]. exact Hin.
Qed.

Lemma uniqueness_ratio (data_type : string) (data : DataFrame) (k : string) (ks : list string) :
  df_empty data = false ->
  _get_key_fields data_type data = k :: ks ->
  _calculate_uniqueness data_type data
  = 100 * (Qnat (length (drop_duplicates (key_rows data (k :: ks)))) / Qnat (index_len data)).
Proof.
  intros Hne Hk. unfold _calculate_uniqueness. rewrite Hne.
  pose proof (get_key_fields_present data_type data) as Hp.
  rewrite Hk in *. rewrite Hp.
  unfold df_empty in Hne. apply orb_false_iff in Hne as [Hrows _]. rewrite Hrows.
  reflexivity.
Qed.

Lemma ratio_100 (u t : nat) : (0 < t)%nat -> 100 * (Qnat u / Qnat t) == 100 <-> u = t.
Proof.
  intros Ht. pose proof (Qnat_pos t Ht) as Hp.
  assert (Qnat u == Qnat u / Qnat t * Qnat t) as E by (field; lra).
  split.
  - intros H. apply Qnat_inj. rewrite E.
    assert (Qnat u / Qnat t == 1) as -> by lra. lra.
  - intros ->. assert (Qnat t / Qnat t == 1) as -> by (field; lra). lra.
Qed.

(** C4.  The claim holds of [_calculate_uniqueness] as it is written,
    which returns 90 when a key field is not a column of the table, but
    not of the score that comes out: [_get_key_fields] has removed the
    absent key fields before, so that branch is never reached.  The
    time profiles of the demo data are keyed by "ProfileID"; the key
    field of the type, "TimeProfileID", is not present in the table,
    the claim's score is 90, and the score returned is 98. *)
Theorem missing_key_field_scores_98 :
  wf_frame sample_time_profiles = true /\
  df_empty sample_time_profiles = false /\
  key_mapping !! "Time Profiles" = Some ["TimeProfileID"] /\
  has_column sample_time_profiles "TimeProfileID" = false /\
  _get_key_fields "Time Profiles" sample_time_profiles = [] /\
  _calculate_uniqueness "Time Profiles" sample_time_profiles == 98 /\
  claimed_uniqueness "Time Profiles" sample_time_profiles == 90 /\
  ~ _calculate_uniqueness "Time Profiles" sample_time_profiles
    == claimed_uniqueness "Time Profiles" sample_time_profiles.
Proof.
  repeat (split; [reflexivity|]). vm_compute. discriminate.
Qed.

(** X26.  For a non-empty dataset, the key fields are those of the
    fixed lookup for the type that are columns of the table, or for an
    unmapped type the first column whose name contains "id", "code" or
    "key".  Without key fields the score is 98.  Otherwise it is 100
    times the number of distinct key combinations divided by the number
    of rows; it is 100 exactly when no two rows have the same key, and
    one more copy of a key among otherwise distinct keys gives
    100 (N - 1) / N on N rows, 90 on 10 rows. *)
Theorem uniqueness_rule (data_type : string) (data : DataFrame)
        (Hne : df_empty data = false) :
  (key_mapping !! "Products" = Some ["ProductID"] /\
   key_mapping !! "Locations" = Some ["LocationID"] /\
   key_mapping !! "Customers" = Some ["CustomerID"] /\
   key_mapping !! "Suppliers" = Some ["SupplierID"] /\
   key_mapping !! "Time Profiles" = Some ["TimeProfileID"] /\
   key_mapping !! "Resource Plans" = Some ["ResourceID"]) /\
  (forall k, key_mapping !! data_type = Some [k] ->
             _get_key_fields data_type data = if has_column data k then [k] else []) /\
  (key_mapping !! data_type = None ->
   _get_key_fields data_type data
   = firstn 1 (List.filter looks_like_id (map fst (columns data)))) /\
  (_get_key_fields data_type data = [] -> _calculate_uniqueness data_type data = 98) /\
  (forall k ks,
      _get_key_fields data_type data = k :: ks ->
      let rows := key_rows data (k :: ks) in
      _calculate_uniqueness data_type data
      == 100 * (Qnat (length (drop_duplicates rows)) / Qnat (index_len data)) /\
      (_calculate_uniqueness data_type data == 100 <-> all_distinct rows = true) /\
      (forall a x b,
          rows = (a ++ x :: b)%list -> all_distinct (a ++ b) = true -> In x (a ++ b) ->
          _calculate_uniqueness data_type data
          == 100 * (Qnat (index_len data - 1) / Qnat (index_len data)) /\
          (index_len data = 10%nat -> _calculate_uniqueness data_type data == 90))).
Proof.
  assert (Hrows : (0 < index_len data)%nat).
  { unfold df_empty in Hne. apply orb_false_iff in Hne as [H _].
    apply Nat.eqb_neq in H. lia. }
  split; [repeat split; reflexivity|].
  split; [|split; [|split]].
  - intros k Hk. unfold _get_key_fields. rewrite Hk. simpl.
    destruct (has_column data k); reflexivity.
  - intros Hk. unfold _get_key_fields. rewrite Hk. reflexivity.
  - intros Hk. unfold _calculate_uniqueness. rewrite Hne, Hk. reflexivity.
  - intros k ks Hk rows.
    pose proof (uniqueness_ratio data_type data k ks Hne Hk) as E. fold rows in E.
    pose proof (key_rows_length data (k :: ks)) as Hlen. fold rows in Hlen.
    split; [rewrite E; reflexivity|]. split.
    + rewrite E, (ratio_100 _ _ Hrows), <- Hlen. apply drop_duplicates_length_iff.
    + intros a x b Hab Hall Hin.
      assert (length (drop_duplicates rows) = (index_len data - 1)%nat) as Hd.
      { rewrite Hab, (drop_duplicates_one_copy a b x Hall Hin).
        rewrite <- Hlen, Hab, !length_app. simpl. lia. }
      rewrite E, Hd. split; [reflexivity|].
      intros ->. reflexivity.
Qed.

Lemma uniqueness_rule_witness :
  df_empty sample_duplicate = false /\
  _get_key_fields "Orders" sample_duplicate = ["ID"] /\
  _calculate_uniqueness "Orders" sample_duplicate == 90.
Proof.
  split; [reflexivity|]. split; [reflexivity|].
  destruct (uniqueness_rule "Orders" sample_duplicate eq_refl) as (_ & _ & _ & _ & H).
  destruct (H "ID" [] eq_refl) as (_ & _ & Hdup).
  apply (Hdup [[Int 1]; [Int 2]; [Int 3]; [Int 4]; [Int 5]; [Int 6]; [Int 7]; [Int 8]; [Int 9]]
              [Int 3] []).
  - reflexivity.
  - reflexivity.
  - simpl. auto 10.
  - reflexivity.
Defined.

Lemma get_column_has_column (data : DataFrame) (col : string) (s : Series) :
  get_column data col = Some s -> has_column data col = true.
Proof.
  unfold get_column, has_column.
  induction (columns data) as [|c l IH]; simpl; [discriminate|].
  destruct (String.eqb col (fst c)); [reflexivity | exact IH].
Qed.

Lemma numeric_column_checks_nonempty (s : Series) (checks : list Q) :
  numeric_column_checks s = Some checks -> checks <> [].
Proof.
  unfold numeric_column_checks.
  destruct (0 <? length (dropna (s_values s)))%nat; [destruct (s_dtype s)|];
    intros [= <-]; discriminate.
Qed.

Lemma products_loop_fails (data : DataFrame) (cols : list string) :
  products_loop data cols None = None.
Proof. induction cols as [|c cols IH]; simpl; [reflexivity | exact IH]. Qed.




(** ** C5: the issues of missing values *)


Lemma insert_by_count_In (x y : string * nat) (l : list (string * nat)) :
  In x (insert_by_count y l) <-> x = y \/ In x l.
Proof.
  induction l as [|z l IH]; simpl.
  - intuition.
  - destruct (snd z <=? snd y)%nat; simpl; [intuition|]. rewrite IH. intuition.
Qed.

Lemma sort_by_count_In (x : string * nat) (l : list (string * nat)) :
  In x (sort_by_count l) <-> In x l.
Proof.
  unfold sort_by_count. induction l as [|y l IH]; simpl; [tauto|].
  rewrite insert_by_count_In, IH. intuition.
Qed.

Lemma rate_positive (count n : nat) : 5 < Qnat count / Qnat n * 100 -> (0 < count)%nat.
Proof.
  intros H. destruct count as [|k]; [|lia].
  exfalso. change (Qnat 0) with 0 in H. unfold Qdiv in H.
  rewrite Qmult_0_l, Qmult_0_l in H. lra.
Qed.

Lemma completeness_issues_In (data : DataFrame) (c : string * Series) :
  In c (columns data) ->
  let null_percentage := Qnat (null_count (snd c)) / Qnat (index_len data) * 100 in
  5 < null_percentage ->
  In {| field := fst c;
        issue := "Missing values ("
                 ++ format_1f (float_percentage (null_count (snd c)) (index_len data)) ++ "%)";
        impact := if Qlt_bool 20 null_percentage then "High" else "Medium" |}
     (completeness_issues data).
Proof.
  intros Hc pct Hrate. unfold completeness_issues.
  apply List.in_flat_map. exists (fst c, null_count (snd c)). split.
  - apply sort_by_count_In. apply List.filter_In. split.
    + apply List.in_map_iff. exists c. auto.
    + simpl. apply Nat.ltb_lt. apply (rate_positive _ _ Hrate).
  - unfold missing_values_issue. simpl. fold pct.
    apply Qlt_bool_iff in Hrate. rewrite Hrate. left. reflexivity.
Qed.

Lemma analyze_issues (rt : runtime) (now : Z) (data_type : string) (data : DataFrame) m :
  analyze_data_health_for_type rt now data_type data = Some m ->
  forall i, In i (if Qlt_bool (_calculate_completeness data) 95
                  then completeness_issues data else []) ->
            In i (issues m).
Proof.
  unfold analyze_data_health_for_type.
  destruct (_calculate_accuracy rt now data_type data); simpl; [|discriminate].
  intros [= <-] i Hi. simpl. apply List.in_or_app. left. exact Hi.
Qed.



(** ** C7: nulls in the fractions *)


Lemma future_date_check_fraction (now : Z) (c : string * Series) :
  s_dtype (snd c) = datetime64 ->
  PyStr.contains "future" (PyStr.lower (fst c)) = false ->
  PyStr.contains "forecast" (PyStr.lower (fst c)) = false ->
  s_values (snd c) <> [] ->
  future_date_check now c
  = [100 * (1 - Qnat (future_rows now (snd c)) / Qnat (length (s_values (snd c))))].
Proof.
  intros Hd Hf1 Hf2 Hne. unfold future_date_check. rewrite Hd, Hf1, Hf2. simpl.
  rewrite length_map.
  destruct (s_values (snd c)) as [|x l] eqn:E; [contradiction|].
  simpl negb. cbv iota. unfold bool_mean.
  rewrite <- E, future_rows_count, length_map. reflexivity.
Qed.










(** ** The applicability of the accuracy checks is exact *)

Lemma products_loop_grows (data : DataFrame) (cols : list string) :
  forall acc l,
    products_loop data cols (Some acc) = Some l ->
    (length acc <= length l)%nat /\
    (existsb (has_numeric_column data) cols = true -> (length acc < length l)%nat).
Proof.
  induction cols as [|col cols IH]; intros acc l; simpl.
  - intros [= <-]. split; [lia | discriminate].
  - destruct (has_numeric_column data col) eqn:Hn; unfold has_numeric_column in Hn;
      destruct (get_column data col) as [s|] eqn:G; try discriminate; simpl.
    + rewrite (get_column_has_column data col s G), Hn. simpl.
      destruct (numeric_column_checks s) as [checks|] eqn:C; simpl.
      * intros H. apply IH in H as [H _].
        pose proof (numeric_column_checks_nonempty s checks C) as Hne.
        rewrite length_app in H. destruct checks; [contradiction|]. simpl in H.
        split; [lia | intros _; lia].
      * rewrite products_loop_fails. discriminate.
    + rewrite Hn, andb_false_r. apply IH.
    + apply IH.
Qed.

(** When a check applies, the accuracy is not the estimate: the list of
    check scores is not empty. *)
Lemma accuracy_scores_some_apply (data_type : string) (data : DataFrame) :
  accuracy_check_applies data_type data = true -> accuracy_scores data_type data <> Some [].
Proof.
  unfold accuracy_check_applies, accuracy_scores.
  destruct (String.eqb data_type "Products").
  - intros H E. apply products_loop_grows in E as [_ E]. specialize (E H). simpl in E. lia.
  - destruct (String.eqb data_type "Locations"); [|discriminate].
    unfold locations_accuracy_scores. intros H. apply andb_prop in H as [Hall Hex].
    rewrite Hall. simpl in Hex. unfold coordinate_check, has_numeric_column in *.
    destruct (get_column data "Latitude") as [s1|];
      destruct (get_column data "Longitude") as [s2|]; simpl in *;
      repeat match goal with
             | |- context [if is_numeric_dtype ?d then _ else _] =>
                 destruct (is_numeric_dtype d)
             end; simpl in *; discriminate.
Qed.

(** ** The analysis of a sample table, value by value *)

Example sample_products_report :
  reduced <$> analyze_data_health_for_type sample_runtime sample_now "Products" sample_products
  = Some (reduced
         {| completeness := 81.25;
            consistency := 100;
            validity := 87.5;
            uniqueness := 75;
            timeliness := 50;
            accuracy := 87.5;
            issues :=
              [{| field := "ProductCategory"; issue := "Missing values (25.0%)";
                  impact := "High" |};
               {| field := "Weight"; issue := "Missing values (25.0%)"; impact := "High" |};
               {| field := "LastUpdated"; issue := "Missing values (25.0%)";
                  impact := "High" |};
               {| field := "Key fields"; issue := "Duplicate records detected";
                  impact := "High" |};
               {| field := "Last updated"; issue := "Many records not recently updated";
                  impact := "Medium" |}] |}).
Proof. vm_compute. reflexivity. Qed.

Example sample_products_score :
  Qred <$> quality_score sample_runtime sample_now "Products" (PyDataFrame sample_products)
  = Some (Qred 8.28125).
Proof. vm_compute. reflexivity. Qed.

Example sample_updates_scores :
  (_calculate_timeliness sample_now sample_updates == 30) /\
  (_calculate_uniqueness "Orders" sample_duplicate == 90) /\
  (_calculate_uniqueness "Products" sample_updates == 98) /\
  (_get_key_fields "Customers" sample_updates = []) /\
  (_get_key_fields "Orders" sample_updates = ["ID"]).
Proof. repeat split; reflexivity. Qed.

(** * Further properties of the analyzer *)

(** ** Completeness *)

Lemma nonempty_size (data : DataFrame) :
  df_empty data = false -> (0 < index_len data)%nat /\ (0 < length (columns data))%nat.
Proof.
  unfold df_empty. intros H. apply orb_false_iff in H as [H1 H2].
  apply Nat.eqb_neq in H1. apply Nat.eqb_neq in H2. lia.
Qed.

Lemma completeness_nonempty (data : DataFrame) :
  df_empty data = false ->
  _calculate_completeness data
  = 100 * (1 - Qnat (missing_cells data) / Qnat (df_size data)).
Proof.
  intros Hne. unfold _calculate_completeness. rewrite Hne.
  destruct (nonempty_size data Hne) as [Hr Hc].
  destruct (Nat.eqb (df_size data) 0) eqn:E; [|reflexivity].
  apply Nat.eqb_eq in E. unfold df_size in E. nia.
Qed.

Lemma fraction_zero (m t : nat) : (0 < t)%nat -> Qnat m / Qnat t == 0 <-> m = O.
Proof.
  intros Ht. pose proof (Qnat_pos t Ht) as Hp.
  assert (Qnat m == Qnat m / Qnat t * Qnat t) as E by (field; lra).
  split.
  - intros H. apply Qnat_inj. rewrite E, H. change (Qnat 0) with 0. lra.
  - intros ->. change (Qnat 0) with 0. unfold Qdiv. apply Qmult_0_l.
Qed.

Lemma analyze_report (rt : runtime) (now : Z) (data_type : string) (data : DataFrame) m :
  analyze_data_health_for_type rt now data_type data = Some m ->
  completeness m = _calculate_completeness data /\
  consistency m = _calculate_consistency rt data_type data /\
  validity m = _calculate_validity now data_type data /\
  uniqueness m = _calculate_uniqueness data_type data /\
  timeliness m = _calculate_timeliness now data /\
  _calculate_accuracy rt now data_type data = Some (accuracy m) /\
  issues m
  = ((if Qlt_bool (_calculate_completeness data) 95 then completeness_issues data else []) ++
     (if Qlt_bool (_calculate_uniqueness data_type data) 100
      then [duplicate_issue (if Qlt_bool (_calculate_uniqueness data_type data) 90
                             then "High" else "Medium")]
      else []) ++
     (if Qlt_bool (_calculate_timeliness now data) 80 then [stale_issue] else []))%list.
Proof.
  unfold analyze_data_health_for_type.
  destruct (_calculate_accuracy rt now data_type data); simpl; [|discriminate].
  intros [= <-]. simpl. repeat split; reflexivity.
Qed.

(** X1.  For a non-empty table, completeness is 100 exactly when no
    cell is null; the report of such a table has no issue about
    missing values: its only possible issues are the one about
    duplicate keys and the one about stale records. *)
Theorem complete_table (rt : runtime) (now : Z) (data_type : string) (data : DataFrame)
        (Hne : df_empty data = false) :
  (_calculate_completeness data == 100 <-> missing_cells data = O) /\
  (forall m,
      missing_cells data = O ->
      analyze_data_health_for_type rt now data_type data = Some m ->
      forall i, In i (issues m) ->
                (exists impact, i = duplicate_issue impact) \/ i = stale_issue).
Proof.
  destruct (nonempty_size data Hne) as [Hr Hc].
  assert (Hsize : (0 < df_size data)%nat) by (unfold df_size; nia).
  assert (Hiff : _calculate_completeness data == 100 <-> missing_cells data = O).
  { rewrite (completeness_nonempty data Hne), <- (fraction_zero _ _ Hsize).
    split; intros H; [lra | rewrite H; lra]. }
  split; [exact Hiff|].
  intros m Hz Hm i Hi. apply Hiff in Hz.
  apply analyze_report in Hm as (_ & _ & _ & _ & _ & _ & Hiss).
  rewrite Hiss in Hi.
  assert (Qlt_bool (_calculate_completeness data) 95 = false) as E
      by (apply Qlt_bool_false; rewrite Hz; discriminate).
  rewrite E in Hi. simpl in Hi.
  apply List.in_app_or in Hi as [Hi | Hi].
  - destruct (Qlt_bool (_calculate_uniqueness data_type data) 100); [|contradiction].
    destruct Hi as [<- | []]. left. eauto.
  - destruct (Qlt_bool (_calculate_timeliness now data) 80); [|contradiction].
    destruct Hi as [<- | []]. right. reflexivity.
Qed.

Lemma complete_table_witness :
  df_empty sample_updates = false /\ missing_cells sample_updates = O /\
  _calculate_completeness sample_updates == 100.
Proof.
  split; [reflexivity|]. split; [reflexivity|].
  apply (proj1 (complete_table sample_runtime sample_now "Orders" sample_updates eq_refl)).
  reflexivity.
Defined.

(** ** Consistency *)

Lemma wf_cells (data : DataFrame) (c : string * Series) :
  wf_frame data = true -> In c (columns data) ->
  forallb (cell_has_dtype (s_dtype (snd c))) (s_values (snd c)) = true.
Proof.
  unfold wf_frame. intros H Hin. apply andb_prop in H as [_ H].
  rewrite List.forallb_forall in H. specialize (H c Hin).
  apply andb_prop in H as [_ H]. exact H.
Qed.

Lemma well_typed_numeric (d : dtype) (l : list cell) :
  (dtype_eqb d int64 || dtype_eqb d float64)%bool = true ->
  forallb (cell_has_dtype d) l = true ->
  existsb id (map is_non_numeric l) = false.
Proof.
  intros Hd Hl. induction l as [|x l IH]; simpl; [reflexivity|].
  simpl in Hl. apply andb_prop in Hl as [Hx Hl]. rewrite (IH Hl), orb_false_r.
  destruct d; try discriminate; destruct x; try discriminate; reflexivity.
Qed.

Lemma typed_columns_add_no_consistency_score_aux (data : DataFrame) (c : string * Series)
        (Hwf : wf_frame data = true) (Hc : In c (columns data))
        (Hd : s_dtype (snd c) <> object) :
  column_consistency (snd c) = [].
Proof.
  pose proof (wf_cells data c Hwf Hc) as Hcells.
  unfold column_consistency.
  destruct (forallb isnull (s_values (snd c))); [reflexivity|].
  destruct (dtype_eqb (s_dtype (snd c)) object) eqn:Eo;
    [apply dtype_eqb_eq in Eo; contradiction|].
  destruct (dtype_eqb (s_dtype (snd c)) int64 || dtype_eqb (s_dtype (snd c)) float64)%bool
    eqn:En; [|reflexivity].
  rewrite (well_typed_numeric _ _ En Hcells). reflexivity.
Qed.

(** X2.  On a well-formed table, a column that is not of dtype object
    contributes no score to the consistency checks: the check for
    non-numeric values in numeric columns never fires. *)
Theorem typed_columns_add_no_consistency_score (data : DataFrame) (c : string * Series)
        (Hwf : wf_frame data = true) (Hc : In c (columns data))
        (Hd : s_dtype (snd c) <> object) :
  column_consistency (snd c) = [].
Proof. exact (typed_columns_add_no_consistency_score_aux data c Hwf Hc Hd). Qed.

Lemma typed_columns_add_no_consistency_score_witness :
  wf_frame sample_products = true /\
  column_consistency sample_weight = [].
Proof.
  split; [reflexivity|].
  apply (typed_columns_add_no_consistency_score sample_products ("Weight", sample_weight)
           eq_refl (or_intror (or_intror (or_introl eq_refl)))).
  discriminate.
Defined.

Lemma Qsum_above (b : Q) (l : list Q) :
  Forall (fun x => b < x) l -> l <> [] -> b * Qnat (length l) < Qsum l.
Proof.
  intros H. induction H as [|x l Hx Hl IH]; [contradiction|]. intros _.
  rewrite Qsum_cons. change (length (x :: l)) with (S (length l)).
  assert (Qnat (S (length l)) == 1 + Qnat (length l)) as ->.
  { unfold Qnat. rewrite Nat2Z.inj_succ, <- Z.add_1_l, inject_Z_plus. reflexivity. }
  destruct l as [|y l].
  - change (Qnat (length [])) with 0. change (Qsum []) with 0. lra.
  - specialize (IH ltac:(discriminate)). lra.
Qed.

Lemma average_above (b : Q) (l : list Q) :
  Forall (fun x => b < x) l -> l <> [] -> b < average l.
Proof.
  intros H Hne. pose proof (Qsum_above b l H Hne) as Hs.
  unfold average. fold (Qnat (length l)).
  apply Qlt_shift_div_l; [|exact Hs].
  apply Qnat_pos. destruct l; [contradiction | simpl; lia].
Qed.

Lemma column_consistency_above_half (data : DataFrame) (c : string * Series) :
  wf_frame data = true -> In c (columns data) ->
  Forall (fun x => 50 < x) (column_consistency (snd c)).
Proof.
  intros Hwf Hc.
  destruct (dtype_eqb (s_dtype (snd c)) object) eqn:Eo.
  - unfold column_consistency. rewrite Eo.
    destruct (forallb isnull (s_values (snd c))); [constructor|].
    apply dtype_eqb_eq in Eo. rewrite Eo. simpl.
    destruct (0 <? length (dropna (s_values (snd c))))%nat; [|constructor].
    case_Qlt; [|constructor]. constructor; [lra | constructor].
  - rewrite (typed_columns_add_no_consistency_score_aux data c Hwf Hc); [constructor|].
    intros E. apply dtype_eqb_eq in E. congruence.
Qed.

(** X3.  For a non-empty well-formed table of a type other than
    Products and Locations, the consistency score is greater than 50:
    a case pattern counts only when more than half of the values
    follow it, and without any such column the score is 95. *)
Theorem consistency_above_half (rt : runtime) (data_type : string) (data : DataFrame)
        (Hne : df_empty data = false) (Hwf : wf_frame data = true)
        (Hp : data_type <> "Products") (Hl : data_type <> "Locations") :
  50 < _calculate_consistency rt data_type data.
Proof.
  unfold _calculate_consistency. rewrite Hne.
  assert (Forall (fun x => 50 < x) (consistency_scores rt data_type data)) as H.
  { unfold consistency_scores.
    apply String.eqb_neq in Hp. apply String.eqb_neq in Hl. rewrite Hp, Hl, app_nil_r.
    assert (forall cols, (forall c, In c cols -> In c (columns data)) ->
                         Forall (fun x => 50 < x)
                                (flat_map (fun c => column_consistency (snd c)) cols)) as G.
    { induction cols as [|c cols IH]; intros Hsub; simpl; [constructor|].
      apply Forall_app. split.
      - apply (column_consistency_above_half data c Hwf). apply Hsub. left. reflexivity.
      - apply IH. intros c' Hc'. apply Hsub. right. exact Hc'. }
    apply G. auto. }
  destruct (consistency_scores rt data_type data) as [|x l] eqn:E; [lra|].
  apply average_above; [exact H | discriminate].
Qed.

Lemma consistency_above_half_witness :
  df_empty sample_duplicate = false /\ wf_frame sample_duplicate = true /\
  50 < _calculate_consistency sample_runtime "Orders" sample_duplicate.
Proof.
  split; [reflexivity|]. split; [reflexivity|].
  apply consistency_above_half; [reflexivity | reflexivity | discriminate | discriminate].
Defined.

(** ** Key fields and uniqueness *)

Lemma key_mapping_single :
  map_Forall (fun _ keys => length keys = 1%nat) key_mapping.
Proof.
  unfold key_mapping. rewrite !list_to_map_cons, list_to_map_nil.
  repeat (apply map_Forall_insert_2; [reflexivity|]). apply map_Forall_empty.
Qed.

(** X4.  [_get_key_fields] returns at most one key field, and a field
    it returns is a column of the table; so the check that all key
    fields are columns never fails in [_calculate_uniqueness]. *)
Theorem key_fields_are_columns (data_type : string) (data : DataFrame) :
  (length (_get_key_fields data_type data) <= 1)%nat /\
  (forall k, In k (_get_key_fields data_type data) -> In k (map fst (columns data))) /\
  forallb (has_column data) (_get_key_fields data_type data) = true.
Proof.
  split; [|split].
  - unfold _get_key_fields. destruct (key_mapping !! data_type) as [keys|] eqn:E.
    + pose proof (key_mapping_single data_type keys E) as H. simpl in H.
      pose proof (List.filter_length_le (has_column data) keys). lia.
    + apply List.firstn_le_length.
  - intros k Hk. pose proof (get_key_fields_present data_type data) as H.
    pose proof (forallb_In _ _ _ H Hk) as Hc. unfold has_column in Hc.
    apply List.existsb_exists in Hc as (c & Hc & Heq).
    apply String.eqb_eq in Heq. subst k. apply List.in_map. exact Hc.
  - apply get_key_fields_present.
Qed.

Lemma drop_duplicates_nonempty (rows : list (list cell)) :
  rows <> [] -> (0 < length (drop_duplicates rows))%nat.
Proof. destruct rows; [contradiction | simpl; lia]. Qed.

Lemma uniqueness_positive_aux (data_type : string) (data : DataFrame)
        (Hne : df_empty data = false) :
  0 < _calculate_uniqueness data_type data /\
  (_get_key_fields data_type data <> [] ->
   100 / Qnat (index_len data) <= _calculate_uniqueness data_type data).
Proof.
  destruct (nonempty_size data Hne) as [Hr _].
  pose proof (Qnat_pos _ Hr) as Hp.
  destruct (_get_key_fields data_type data) as [|k ks] eqn:E.
  - split; [|contradiction].
    unfold _calculate_uniqueness. rewrite Hne, E. reflexivity.
  - assert (100 / Qnat (index_len data) <= _calculate_uniqueness data_type data) as H.
    { rewrite (uniqueness_ratio data_type data k ks Hne E).
      assert (0 < length (drop_duplicates (key_rows data (k :: ks))))%nat as Hd.
      { apply drop_duplicates_nonempty. intros Hnil.
        pose proof (key_rows_length data (k :: ks)) as Hlen. rewrite Hnil in Hlen.
        simpl in Hlen. lia. }
      apply (Qnat_le 1) in Hd. change (Qnat 1) with 1 in Hd.
      unfold Qdiv. rewrite Qmult_assoc.
      apply Qmult_le_compat_r; [lra | apply Qlt_le_weak, Qinv_lt_0_compat, Hp]. }
    split; [|intros _; exact H].
    eapply Qlt_le_trans; [|exact H].
    apply Qlt_shift_div_l; [exact Hp | lra].
Qed.

(** X5.  The uniqueness score of a non-empty table is never 0: it is
    98 without key fields, and with key fields at least 100 / N on N
    rows. *)
Theorem uniqueness_positive (data_type : string) (data : DataFrame)
        (Hne : df_empty data = false) :
  0 < _calculate_uniqueness data_type data /\
  (_get_key_fields data_type data <> [] ->
   100 / Qnat (index_len data) <= _calculate_uniqueness data_type data).
Proof. exact (uniqueness_positive_aux data_type data Hne). Qed.

Lemma uniqueness_positive_witness :
  df_empty sample_products = false /\
  0 < _calculate_uniqueness "Products" sample_products.
Proof.
  split; [reflexivity|].
  exact (proj1 (uniqueness_positive "Products" sample_products eq_refl)).
Defined.

(** ** The aggregate score *)

(** X6.  For a well-formed dataset whose aggregate score is returned,
    the score is 0 exactly when the dataset has no data (it is not a
    table, or the table is empty); a table with data scores more
    than 0. *)
Theorem aggregate_zero_iff_no_data (rt : runtime) (now : Z) (data_type : string)
        (data : pyobj) (s : Q)
        (Hwf : match data with PyDataFrame df => wf_frame df = true | PyOther => True end)
        (Hs : quality_score rt now data_type data = Some s) :
  s == 0 <-> has_data data = None.
Proof.
  unfold quality_score in Hs. destruct (has_data data) as [df|] eqn:E.
  - apply has_data_Some in E as [-> Hne].
    destruct (analyze_data_health_for_type rt now data_type df) as [m|] eqn:Hm;
      simpl in Hs; [|discriminate].
    injection Hs as <-.
    pose proof (analyze_for_type_range rt now data_type df m Hwf Hm)
      as ([? ?] & [? ?] & [? ?] & [? ?] & [? ?] & [? ?]).
    apply analyze_report in Hm as (_ & _ & _ & Hu & _).
    pose proof (proj1 (uniqueness_positive_aux data_type df Hne)) as Hpos. rewrite <- Hu in Hpos.
    assert (0 < weighted_score m) as Hw.
    { rewrite weighted_score_eq.
      assert (forall x, x / 10 == x * (1 # 10)) as D by (intros x; field).
      rewrite !D. lra. }
    split; [|discriminate].
    intros Hzero. exfalso. unfold pymin in Hzero. revert Hzero.
    case_Qlt; intros Hzero; lra.
  - injection Hs as <-. split; reflexivity.
Qed.

Lemma aggregate_zero_iff_no_data_witness :
  exists s,
    quality_score sample_runtime sample_now "Products" (PyDataFrame sample_products) = Some s /\
    ~ s == 0.
Proof.
  destruct (quality_score sample_runtime sample_now "Products" (PyDataFrame sample_products))
    as [s|] eqn:E; [|vm_compute in E; discriminate].
  exists s. split; [reflexivity|].
  intros H.
  apply (aggregate_zero_iff_no_data sample_runtime sample_now "Products"
           (PyDataFrame sample_products) s eq_refl E) in H.
  discriminate H.
Defined.

(** ** Issues *)

Lemma missing_values_issue_shape (data : DataFrame) (p : string * nat) (i : Issue) :
  In i (missing_values_issue data p) ->
  field i = fst p /\
  PyStr.startswith "Missing values (" (issue i) = true /\
  (impact i = "High" \/ impact i = "Medium").
Proof.
  unfold missing_values_issue. case_Qlt; [|contradiction].
  intros [<- | []]. simpl. split; [reflexivity|]. split; [reflexivity|].
  destruct (Qlt_bool 20 _); auto.
Qed.

Lemma completeness_issues_shape (data : DataFrame) (i : Issue) :
  In i (completeness_issues data) ->
  PyStr.startswith "Missing values (" (issue i) = true /\
  (impact i = "High" \/ impact i = "Medium").
Proof.
  unfold completeness_issues. intros H. apply List.in_flat_map in H as (p & _ & H).
  apply missing_values_issue_shape in H as (_ & H1 & H2). auto.
Qed.

Lemma duplicate_issue_iff_aux (rt : runtime) (now : Z) (data_type : string) (data : DataFrame)
        (m : Metrics)
        (Hm : analyze_data_health_for_type rt now data_type data = Some m) :
  ((exists impact, In (duplicate_issue impact) (issues m)) <-> uniqueness m < 100) /\
  (In (duplicate_issue "High") (issues m) <-> uniqueness m < 90) /\
  (In (duplicate_issue "Medium") (issues m) <-> 90 <= uniqueness m /\ uniqueness m < 100).
Proof.
  apply analyze_report in Hm as (_ & _ & _ & Hu & _ & _ & Hiss).
  rewrite Hiss, Hu. clear Hiss Hu.
  set (u := _calculate_uniqueness data_type data).
  assert (forall impact,
             In (duplicate_issue impact)
                ((if Qlt_bool (_calculate_completeness data) 95
                  then completeness_issues data else []) ++
                 (if Qlt_bool u 100
                  then [duplicate_issue (if Qlt_bool u 90 then "High" else "Medium")]
                  else []) ++
                 (if Qlt_bool (_calculate_timeliness now data) 80 then [stale_issue] else []))
             <-> u < 100 /\ impact = (if Qlt_bool u 90 then "High" else "Medium")) as Key.
  { intros impact. rewrite !List.in_app_iff. split.
    - intros [H | [H | H]].
      + destruct (Qlt_bool (_calculate_completeness data) 95); [|contradiction].
        apply completeness_issues_shape in H as [H _]. discriminate H.
      + destruct (Qlt_bool u 100) eqn:E; [|contradiction].
        apply Qlt_bool_iff in E. destruct H as [H | []].
        injection H as H. auto.
      + destruct (Qlt_bool (_calculate_timeliness now data) 80); [|contradiction].
        destruct H as [H | []]. discriminate H.
    - intros [H ->]. right. left. apply Qlt_bool_iff in H. rewrite H. left. reflexivity. }
  split; [|split].
  - split.
    + intros [impact H]. apply Key in H as [H _]. exact H.
    + intros H. eexists. apply Key. split; [exact H | reflexivity].
  - rewrite Key. split.
    + intros [H E]. revert E. case_Qlt; [auto | discriminate].
    + intros H. split; [lra|]. apply Qlt_bool_iff in H. rewrite H. reflexivity.
  - rewrite Key. split.
    + intros [H E]. revert E. case_Qlt; [discriminate | auto].
    + intros [H1 H2]. split; [exact H2|]. apply Qlt_bool_false in H1. rewrite H1. reflexivity.
Qed.

(** X7.  The report of a table has the issue "Duplicate records
    detected" for "Key fields" exactly when its uniqueness score is
    below 100; the impact is "High" below 90 and "Medium" from 90 on. *)
Theorem duplicate_issue_iff (rt : runtime) (now : Z) (data_type : string) (data : DataFrame)
        (m : Metrics)
        (Hm : analyze_data_health_for_type rt now data_type data = Some m) :
  ((exists impact, In (duplicate_issue impact) (issues m)) <-> uniqueness m < 100) /\
  (In (duplicate_issue "High") (issues m) <-> uniqueness m < 90) /\
  (In (duplicate_issue "Medium") (issues m) <-> 90 <= uniqueness m /\ uniqueness m < 100).
Proof. exact (duplicate_issue_iff_aux rt now data_type data m Hm). Qed.

Lemma duplicate_issue_iff_witness :
  exists m,
    analyze_data_health_for_type sample_runtime sample_now "Products" sample_products = Some m /\
    uniqueness m < 90 /\ In (duplicate_issue "High") (issues m).
Proof.
  destruct (analyze_data_health_for_type sample_runtime sample_now "Products" sample_products)
    as [m|] eqn:E; [|vm_compute in E; discriminate].
  assert (uniqueness m < 90) as Hu.
  { vm_compute in E. injection E as <-. reflexivity. }
  exists m. split; [reflexivity|]. split; [exact Hu|].
  apply (duplicate_issue_iff sample_runtime sample_now "Products" sample_products m E).
  exact Hu.
Defined.

(** X8.  When no key field is found for a non-empty table, nothing is
    compared, the uniqueness score is 98, and the report nevertheless
    has the issue "Duplicate records detected" with impact "Medium". *)
Theorem no_key_field_reports_duplicates (rt : runtime) (now : Z) (data_type : string)
        (data : DataFrame) (m : Metrics)
        (Hne : df_empty data = false)
        (Hk : _get_key_fields data_type data = [])
        (Hm : analyze_data_health_for_type rt now data_type data = Some m) :
  uniqueness m = 98 /\ In (duplicate_issue "Medium") (issues m).
Proof.
  assert (uniqueness m = 98) as Hu.
  { pose proof (analyze_report rt now data_type data m Hm) as (_ & _ & _ & Hu & _).
    rewrite Hu. unfold _calculate_uniqueness. rewrite Hne, Hk. reflexivity. }
  split; [exact Hu|].
  apply (duplicate_issue_iff_aux rt now data_type data m Hm). rewrite Hu.
  split; [discriminate | reflexivity].
Qed.

Lemma no_key_field_reports_duplicates_witness :
  df_empty sample_sparse = false /\ _get_key_fields "Orders" sample_sparse = [] /\
  exists m,
    analyze_data_health_for_type sample_runtime sample_now "Orders" sample_sparse = Some m /\
    uniqueness m = 98 /\ In (duplicate_issue "Medium") (issues m).
Proof.
  split; [reflexivity|]. split; [reflexivity|].
  destruct (analyze_data_health_for_type sample_runtime sample_now "Orders" sample_sparse)
    as [m|] eqn:E; [|vm_compute in E; discriminate].
  exists m. split; [reflexivity|].
  exact (no_key_field_reports_duplicates sample_runtime sample_now "Orders" sample_sparse m
           eq_refl eq_refl E).
Defined.

(** X9.  The report has the issue "Many records not recently updated"
    exactly when the timeliness score is below 80; a non-empty table
    without a column named like a timestamp scores 85 and never has
    it. *)
Theorem stale_issue_iff (rt : runtime) (now : Z) (data_type : string) (data : DataFrame)
        (m : Metrics)
        (Hm : analyze_data_health_for_type rt now data_type data = Some m) :
  (In stale_issue (issues m) <-> timeliness m < 80) /\
  (df_empty data = false ->
   (forall c, In c (columns data) -> is_timestamp_name (fst c) = false) ->
   ~ In stale_issue (issues m)).
Proof.
  pose proof (analyze_report rt now data_type data m Hm) as (_ & _ & _ & _ & Ht & _ & Hiss).
  assert (In stale_issue (issues m) <-> timeliness m < 80) as Hiff.
  { rewrite Hiss, Ht, !List.in_app_iff. split.
    - intros [H | [H | H]].
      + destruct (Qlt_bool (_calculate_completeness data) 95); [|contradiction].
        apply completeness_issues_shape in H as [H _]. discriminate H.
      + destruct (Qlt_bool (_calculate_uniqueness data_type data) 100); [|contradiction].
        destruct H as [H | []]. discriminate H.
      + destruct (Qlt_bool (_calculate_timeliness now data) 80) eqn:E; [|contradiction].
        apply Qlt_bool_iff in E. exact E.
    - intros H. right. right. apply Qlt_bool_iff in H. rewrite H. left. reflexivity. }
  split; [exact Hiff|].
  intros Hne Hnone H. apply Hiff in H. rewrite Ht in H.
  unfold _calculate_timeliness in H. rewrite Hne in H.
  change (List.filter _ (columns data))
    with (List.filter (fun c => is_timestamp_name (fst c)) (columns data)) in H.
  rewrite (filter_none (fun c => is_timestamp_name (fst c)) _ Hnone) in H.
  discriminate H.
Qed.

Lemma stale_issue_iff_witness :
  exists m,
    analyze_data_health_for_type sample_runtime sample_now "Products" sample_products = Some m /\
    timeliness m < 80 /\ In stale_issue (issues m).
Proof.
  destruct (analyze_data_health_for_type sample_runtime sample_now "Products" sample_products)
    as [m|] eqn:E; [|vm_compute in E; discriminate].
  assert (timeliness m < 80) as Ht.
  { vm_compute in E. injection E as <-. reflexivity. }
  exists m. split; [reflexivity|]. split; [exact Ht|].
  apply (stale_issue_iff sample_runtime sample_now "Products" sample_products m E).
  exact Ht.
Defined.

Lemma insert_by_count_length (x : string * nat) (l : list (string * nat)) :
  length (insert_by_count x l) = S (length l).
Proof.
  induction l as [|y l IH]; simpl; [reflexivity|].
  destruct (snd y <=? snd x)%nat; simpl; [reflexivity | rewrite IH; reflexivity].
Qed.

Lemma sort_by_count_length (l : list (string * nat)) :
  length (sort_by_count l) = length l.
Proof.
  unfold sort_by_count. induction l as [|x l IH]; simpl; [reflexivity|].
  rewrite insert_by_count_length, IH. reflexivity.
Qed.

Lemma completeness_issues_length (data : DataFrame) :
  (length (completeness_issues data) <= length (columns data))%nat.
Proof.
  unfold completeness_issues.
  set (l := sort_by_count _).
  assert (length (flat_map (missing_values_issue data) l) <= length l)%nat as H.
  { induction l as [|p l IH]; simpl; [lia|]. rewrite length_app.
    unfold missing_values_issue at 1. destruct (Qlt_bool 5 _); simpl; lia. }
  etransitivity; [exact H|]. unfold l.
  rewrite sort_by_count_length.
  etransitivity; [apply List.filter_length_le|]. rewrite length_map. reflexivity.
Qed.

(** X10.  Every issue of a report has impact "High" or "Medium"
    (never "Low"), and a report of a table has at most one issue per
    column plus two. *)
Theorem issues_bounded (rt : runtime) (now : Z) (data_type : string) (data : DataFrame)
        (m : Metrics)
        (Hm : analyze_data_health_for_type rt now data_type data = Some m) :
  (forall i, In i (issues m) -> impact i = "High" \/ impact i = "Medium") /\
  (length (issues m) <= length (columns data) + 2)%nat.
Proof.
  apply analyze_report in Hm as (_ & _ & _ & _ & _ & _ & Hiss). rewrite Hiss. split.
  - intros i Hi. rewrite !List.in_app_iff in Hi. destruct Hi as [H | [H | H]].
    + destruct (Qlt_bool (_calculate_completeness data) 95); [|contradiction].
      apply completeness_issues_shape in H as [_ H]. exact H.
    + destruct (Qlt_bool (_calculate_uniqueness data_type data) 100); [|contradiction].
      destruct H as [<- | []]. simpl.
      destruct (Qlt_bool (_calculate_uniqueness data_type data) 90); auto.
    + destruct (Qlt_bool (_calculate_timeliness now data) 80); [|contradiction].
      destruct H as [<- | []]. auto.
  - rewrite !length_app. pose proof (completeness_issues_length data) as H.
    destruct (Qlt_bool (_calculate_completeness data) 95);
      destruct (Qlt_bool (_calculate_uniqueness data_type data) 100);
      destruct (Qlt_bool (_calculate_timeliness now data) 80); simpl; lia.
Qed.

Lemma issues_bounded_witness :
  exists m,
    analyze_data_health_for_type sample_runtime sample_now "Products" sample_products = Some m /\
    (length (issues m) <= length (columns sample_products) + 2)%nat.
Proof.
  destruct (analyze_data_health_for_type sample_runtime sample_now "Products" sample_products)
    as [m|] eqn:E; [|vm_compute in E; discriminate].
  exists m. split; [reflexivity|].
  exact (proj2 (issues_bounded sample_runtime sample_now "Products" sample_products m E)).
Defined.

Lemma insert_by_count_sorted (x : string * nat) (l : list (string * nat)) :
  by_decreasing_count l -> by_decreasing_count (insert_by_count x l).
Proof.
  unfold by_decreasing_count. induction 1 as [|y l Hl IH Hy]; simpl.
  - constructor; constructor.
  - destruct (snd y <=? snd x)%nat eqn:E.
    + apply Nat.leb_le in E. constructor; [constructor; assumption|].
      constructor; [exact E|].
      eapply List.Forall_impl; [|exact Hy]. intros z Hz. simpl in *. lia.
    + apply Nat.leb_gt in E. constructor; [exact IH|].
      apply List.Forall_forall. intros z Hz. apply insert_by_count_In in Hz as [-> | Hz].
      * lia.
      * rewrite List.Forall_forall in Hy. apply Hy, Hz.
Qed.

Lemma sort_by_count_sorted (l : list (string * nat)) : by_decreasing_count (sort_by_count l).
Proof.
  unfold sort_by_count. induction l as [|x l IH]; simpl.
  - constructor.
  - apply insert_by_count_sorted, IH.
Qed.

Lemma filter_sorted (f : string * nat -> bool) (l : list (string * nat)) :
  by_decreasing_count l -> by_decreasing_count (List.filter f l).
Proof.
  unfold by_decreasing_count. induction 1 as [|y l Hl IH Hy]; simpl; [constructor|].
  destruct (f y); [|exact IH]. constructor; [exact IH|].
  apply List.Forall_forall. intros z Hz. apply List.filter_In in Hz as [Hz _].
  rewrite List.Forall_forall in Hy. apply Hy, Hz.
Qed.

(** X11.  The issues about missing values are listed by non-increasing
    null count of their columns: their fields are, in order, the names
    of columns of the table paired with their null counts, and the
    counts never increase along the list. *)
Theorem missing_values_issues_ordered (data : DataFrame) :
  exists reported : list (string * nat),
    map field (completeness_issues data) = map fst reported /\
    by_decreasing_count reported /\
    (forall p, In p reported ->
               (0 < snd p)%nat /\
               exists c, In c (columns data) /\ p = (fst c, null_count (snd c))).
Proof.
  set (null_counts := map (fun c => (fst c, null_count (snd c))) (columns data)).
  set (problem_fields := sort_by_count (List.filter (fun p => (0 <? snd p)%nat) null_counts)).
  exists (List.filter
            (fun p => Qlt_bool 5 (Qnat (snd p) / Qnat (index_len data) * 100)) problem_fields).
  split; [|split].
  - unfold completeness_issues. fold null_counts. fold problem_fields.
    induction problem_fields as [|p l IH]; simpl; [reflexivity|].
    rewrite List.map_app, IH. unfold missing_values_issue at 1.
    destruct (Qlt_bool 5 _); reflexivity.
  - apply filter_sorted, sort_by_count_sorted.
  - intros p Hp. apply List.filter_In in Hp as [Hp _].
    unfold problem_fields in Hp. apply (proj1 (sort_by_count_In _ _)) in Hp.
    apply List.filter_In in Hp as [Hp Hpos].
    apply Nat.ltb_lt in Hpos. split; [exact Hpos|].
    apply List.in_map_iff in Hp as (c & <- & Hc). eauto.
Qed.

(** ** The two results side by side *)

Lemma for_items_defined {A B : Type} (body : string -> A -> option B) (d : gmap string A) results :
  for_items body d = Some results ->
  forall k v, d !! k = Some v -> is_Some (body k v).
Proof.
  unfold for_items. revert results.
  apply (map_fold_weak_ind
           (fun r m => forall results, r = Some results ->
                                       forall k v, m !! k = Some v -> is_Some (body k v))).
  - intros results _ k v Hk. rewrite lookup_empty in Hk. discriminate.
  - intros i x m r Hi IH results Hr k v Hk.
    destruct r as [res|]; simpl in Hr; [|discriminate].
    destruct (body i x) as [b|] eqn:Hb; simpl in Hr; [|discriminate].
    destruct (decide (i = k)) as [->|Hne].
    + rewrite lookup_insert_eq in Hk. injection Hk as <-. rewrite Hb. eauto.
    + rewrite lookup_insert_ne in Hk by assumption. apply (IH res eq_refl k v Hk).
Qed.

Lemma for_items_dom {A B : Type} (body : string -> A -> option B) (d : gmap string A) results :
  for_items body d = Some results -> dom results = dom d.
Proof.
  intros H. apply set_eq. intros k. rewrite !elem_of_dom, (for_items_lookup _ _ _ k H).
  split.
  - intros [b Hb]. destruct (d !! k); [eauto | discriminate].
  - intros [v Hv]. rewrite Hv. simpl. apply (for_items_defined _ _ _ H k v Hv).
Qed.

(** X12.  The two entry points are called one after the other and each
    reads the clock.  When both return, their results have exactly the
    dataset names of the input as keys; and when the two clock values
    place every timestamp of the tables on the same side of "now" and
    of "now minus 90 days", the aggregate score of every dataset is the
    weighted sum of the six scores of its report, capped at 10. *)
Theorem results_agree (rt : runtime) (now_scores now_health : Z) (self : DataQualityAnalyzer)
        (health : gmap string Metrics) (scores : gmap string Q)
        (Hs : calculate_quality_scores rt now_scores self = Some scores)
        (Hh : analyze_data_health rt now_health self = Some health) :
  dom health = dom (master_data self) /\
  dom scores = dom (master_data self) /\
  (clocks_agree_on now_scores now_health (master_data self) ->
   forall name m, health !! name = Some m ->
                  exists s, scores !! name = Some s /\ s == Qmin (weighted_score m) 10).
Proof.
  split; [exact (for_items_dom _ _ _ Hh)|]. split; [exact (for_items_dom _ _ _ Hs)|].
  intros Hclock name m Hm.
  rewrite (analyze_data_health_lookup _ _ _ _ name Hh) in Hm.
  rewrite (calculate_quality_scores_lookup _ _ _ _ name Hs).
  destruct (master_data self !! name) as [data|] eqn:El; simpl in *; [|discriminate].
  pose proof (Hclock name data El) as Hside. simpl in Hside.
  unfold data_health in Hm. unfold quality_score.
  destruct (has_data data) as [df|] eqn:Ed.
  - apply has_data_Some in Ed as [-> _].
    rewrite (analyze_same_side rt now_scores now_health df Hside name), Hm. simpl.
    eexists. split; [reflexivity|]. apply pymin_Qmin.
  - injection Hm as <-. exists 0. split; [reflexivity|]. vm_compute. reflexivity.
Qed.

Lemma results_agree_witness :
  exists health scores,
    calculate_quality_scores sample_runtime sample_now (__init__ sample_master_data)
      = Some scores /\
    analyze_data_health sample_runtime (sample_now + day) (__init__ sample_master_data)
      = Some health /\
    dom health = dom scores /\
    forall name m, health !! name = Some m ->
                   exists s, scores !! name = Some s /\ s == Qmin (weighted_score m) 10.
Proof.
  set (self := __init__ sample_master_data).
  destruct (calculate_quality_scores sample_runtime sample_now self)
    as [scores|] eqn:Es; [|vm_compute in Es; discriminate].
  destruct (analyze_data_health sample_runtime (sample_now + day) self)
    as [health|] eqn:Eh; [|vm_compute in Eh; discriminate].
  exists health, scores. split; [reflexivity|]. split; [reflexivity|].
  destruct (results_agree sample_runtime sample_now (sample_now + day) self health scores Es Eh)
    as (H1 & H2 & H3).
  split; [rewrite H1, H2; reflexivity|].
  apply H3. exact sample_clocks_agree.
Defined.

(** ** Validity and accuracy of data that passes every check *)

Lemma bool_mean_none {A : Type} (f : A -> bool) (l : list A) :
  forallb (fun x => negb (f x)) l = true -> bool_mean (map f l) == 0.
Proof.
  intros H. unfold bool_mean. rewrite count_true_map, filter_none.
  - change (Qnat (length [])) with 0. unfold Qdiv. apply Qmult_0_l.
  - intros x Hx. apply negb_true_iff. apply (forallb_In _ _ _ H Hx).
Qed.


Lemma Qnat_S (n : nat) : Qnat (S n) == 1 + Qnat n.
Proof. unfold Qnat. rewrite Nat2Z.inj_succ, <- Z.add_1_l, inject_Z_plus. reflexivity. Qed.


Lemma average_all_100 (l : list Q) :
  Forall (fun x => x == 100) l -> l <> [] -> average l == 100.
Proof.
  intros H Hne.
  assert (Qsum l == 100 * Qnat (length l)) as E.
  { clear Hne. induction H as [|x l Hx _ IH].
    - vm_compute. reflexivity.
    - rewrite Qsum_cons, IH, Hx.
      pose proof (Qnat_S (length l)) as HS.
      change (S (length l)) with (length (x :: l)) in HS. rewrite HS. ring. }
  unfold average. fold (Qnat (length l)). rewrite E.
  assert (0 < Qnat (length l)) by (apply Qnat_pos; destruct l; [contradiction | simpl; lia]).
  field. lra.
Qed.





(** X14.  For a non-empty Locations table that has both coordinate
    columns, at least one of them numeric, and whose coordinates are
    null or within [-90, 90] and [-180, 180], the accuracy score is
    100. *)
Theorem locations_accuracy_in_range (rt : runtime) (now : Z) (data : DataFrame)
        (Hne : df_empty data = false)
        (Happ : accuracy_check_applies "Locations" data = true)
        (Hlat : within data "Latitude" 90 = true)
        (Hlon : within data "Longitude" 180 = true) :
  exists a, _calculate_accuracy rt now "Locations" data = Some a /\ a == 100.
Proof.
  pose proof (accuracy_scores_some_apply "Locations" data Happ) as Hsome.
  unfold _calculate_accuracy. rewrite Hne.
  assert (accuracy_scores "Locations" data = Some (locations_accuracy_scores data)) as E
      by reflexivity.
  rewrite E in *. simpl.
  assert (Forall (fun x => x == 100) (locations_accuracy_scores data)) as H.
  { unfold locations_accuracy_scores.
    destruct (forallb (has_column data) coordinate_columns); [|constructor].
    assert (forall col bound, within data col bound = true ->
                              Forall (fun x => x == 100) (coordinate_check data col bound)) as G.
    { intros col bound Hw. unfold within, coordinate_check in *.
      destruct (get_column data col) as [s|]; [|constructor].
      destruct (is_numeric_dtype (s_dtype s)); [|constructor].
      constructor; [|constructor].
      rewrite (bool_mean_none (fun x => (cell_lt x (- bound) || cell_gt x bound)%bool) _ Hw).
      reflexivity. }
    apply Forall_app. split; apply G; assumption. }
  destruct (locations_accuracy_scores data) as [|x l] eqn:El; [congruence|].
  eexists. split; [reflexivity|]. apply average_all_100; [exact H | discriminate].
Qed.

Lemma locations_accuracy_in_range_witness :
  df_empty sample_locations = false /\
  accuracy_check_applies "Locations" sample_locations = true /\
  exists a,
    _calculate_accuracy sample_runtime sample_now "Locations" sample_locations = Some a /\
    a == 100.
Proof.
  split; [reflexivity|]. split; [reflexivity|].
  exact (locations_accuracy_in_range sample_runtime sample_now sample_locations
           eq_refl eq_refl eq_refl eq_refl).
Defined.

(** * The pages that read the tables and the results *)

(** X15.  The completeness of the data overview of a report is the
    completeness score of the analyzer, for every table (0 for a table
    without rows or without columns); the percentage of missing values
    of the data health page is its complement to 100 on a non-empty
    table. *)
Theorem overview_matches_analyzer (data : DataFrame) :
  overview_completeness data == _calculate_completeness data /\
  (df_empty data = false ->
   overview_null_percentage data == 100 - _calculate_completeness data).
Proof.
  unfold overview_completeness, overview_null_percentage, _calculate_completeness, df_size.
  destruct (df_empty data) eqn:Hne.
  - split; [|discriminate].
    unfold df_empty in Hne. apply orb_true_iff in Hne.
    assert (index_len data * length (columns data) = 0)%nat as ->; [|reflexivity].
    destruct Hne as [H | H]; apply Nat.eqb_eq in H; rewrite H; lia.
  - destruct (nonempty_size data Hne) as [Hr Hc].
    assert (0 < index_len data * length (columns data))%nat as Hpos by nia.
    pose proof (Qnat_pos _ Hpos) as Hq.
    assert ((0 <? index_len data * length (columns data))%nat = true) as ->
        by (apply Nat.ltb_lt; exact Hpos).
    assert (Nat.eqb (index_len data * length (columns data)) 0 = false) as ->
        by (apply Nat.eqb_neq; lia).
    split; [|intros _]; field; lra.
Qed.

Lemma field_completeness_sum (n : nat) (cols : list (string * Series)) :
  (0 < n)%nat ->
  List.Forall (fun c => length (s_values (snd c)) = n) cols ->
  Qsum (map (fun c => (1 - bool_mean (map isnull (s_values (snd c)))) * 100) cols)
  == 100 * Qnat (length cols)
     - 100 * Qnat (fold_right (fun c acc => null_count (snd c) + acc)%nat O cols) / Qnat n.
Proof.
  intros Hn H. pose proof (Qnat_pos n Hn) as Hq.
  induction H as [|c cols Hc _ IH].
  - vm_compute. reflexivity.
  - cbn [map fold_right]. rewrite Qsum_cons, IH.
    pose proof (Qnat_S (length cols)) as HS.
    change (S (length cols)) with (length (c :: cols)) in HS. rewrite HS.
    unfold bool_mean. rewrite length_map, Hc.
    fold (null_count (snd c)).
    assert (Qnat (null_count (snd c) + fold_right (fun c acc => null_count (snd c) + acc)%nat
                                                  O cols)
            == Qnat (null_count (snd c))
               + Qnat (fold_right (fun c acc => null_count (snd c) + acc)%nat O cols)) as ->.
    { unfold Qnat. rewrite Nat2Z.inj_add, inject_Z_plus. reflexivity. }
    fold (Qnat (null_count (snd c))). fold (Qnat n).
    set (a := Qnat (null_count (snd c))).
    set (b := Qnat (fold_right _ _ cols)).
    set (k := Qnat (length cols)).
    set (q := Qnat n) in *.
    field. lra.
Qed.

(** X16.  For a non-empty well-formed table, the completeness score of
    the analyzer is the mean of the per-field completeness percentages
    that the dashboard and the data health page chart. *)
Theorem completeness_is_mean_of_fields (data : DataFrame)
        (Hne : df_empty data = false) (Hwf : wf_frame data = true) :
  _calculate_completeness data == average (map snd (field_completeness data)).
Proof.
  destruct (nonempty_size data Hne) as [Hr Hc].
  rewrite (completeness_nonempty data Hne).
  unfold average, field_completeness. rewrite List.map_map, !length_map. simpl.
  fold (Qnat (length (columns data))).
  rewrite (field_completeness_sum (index_len data) (columns data) Hr (wf_lengths data Hwf)).
  fold (missing_cells data). unfold df_size.
  assert (Qnat (index_len data * length (columns data))
          == Qnat (index_len data) * Qnat (length (columns data))) as ->.
  { unfold Qnat. rewrite Nat2Z.inj_mul, inject_Z_mult. reflexivity. }
  pose proof (Qnat_pos _ Hr). pose proof (Qnat_pos _ Hc).
  field. split; lra.
Qed.

Lemma completeness_is_mean_of_fields_witness :
  df_empty sample_products = false /\ wf_frame sample_products = true /\
  map (fun p => (fst p, Qred (snd p))) (field_completeness sample_products)
  = [("ProductID", 100); ("ProductCategory", 75); ("Weight", 75); ("LastUpdated", 75)] /\
  _calculate_completeness sample_products
  == average (map snd (field_completeness sample_products)).
Proof.
  split; [reflexivity|]. split; [reflexivity|]. split; [reflexivity|].
  exact (completeness_is_mean_of_fields sample_products eq_refl eq_refl).
Defined.

(** X17.  For a column of a non-empty well-formed table, the null
    percentage that the analyzer tests and the field completeness of
    the pages add up to 100: the column passes the analyzer's test for
    a missing-values issue (null rate above 5%) exactly when its field
    completeness is below 95, and the issue has impact "High" exactly
    when the field completeness is below 80. *)
Theorem issue_thresholds_match_pages (data : DataFrame) (c : string * Series)
        (Hne : df_empty data = false) (Hwf : wf_frame data = true)
        (Hc : In c (columns data)) :
  let null_percentage := Qnat (null_count (snd c)) / Qnat (index_len data) * 100 in
  let completeness := (1 - bool_mean (map isnull (s_values (snd c)))) * 100 in
  In (fst c, completeness) (field_completeness data) /\
  null_percentage + completeness == 100 /\
  (missing_values_issue data (fst c, null_count (snd c)) <> [] <-> completeness < 95) /\
  (In {| field := fst c;
         issue := "Missing values ("
                  ++ format_1f (float_percentage (null_count (snd c)) (index_len data)) ++ "%)";
         impact := "High" |} (missing_values_issue data (fst c, null_count (snd c)))
   <-> completeness < 80).
Proof.
  intros pct fc.
  destruct (nonempty_size data Hne) as [Hr _]. pose proof (Qnat_pos _ Hr) as Hq.
  assert (pct + fc == 100) as Hsum.
  { unfold pct, fc, bool_mean. rewrite length_map, (wf_column_length data c Hwf Hc).
    change (inject_Z (Z.of_nat (count_true (map isnull (s_values (snd c))))))
      with (Qnat (null_count (snd c))).
    fold (Qnat (index_len data)).
    set (a := Qnat (null_count (snd c))). set (q := Qnat (index_len data)) in *.
    field. lra. }
  split; [|split; [exact Hsum|split]].
  - unfold field_completeness. apply List.in_map_iff. exists c. auto.
  - unfold missing_values_issue. simpl. fold pct.
    destruct (Qlt_bool 5 pct) eqn:E.
    + apply Qlt_bool_iff in E. split; [intros _; lra | discriminate].
    + apply Qlt_bool_false in E. split; [contradiction | intros H; lra].
  - unfold missing_values_issue. simpl. fold pct.
    destruct (Qlt_bool 5 pct) eqn:E5.
    + apply Qlt_bool_iff in E5. destruct (Qlt_bool 20 pct) eqn:E20.
      * apply Qlt_bool_iff in E20. split; [intros _; lra | intros _; left; reflexivity].
      * apply Qlt_bool_false in E20. split; [|intros H; lra].
        intros [H | []]. discriminate H.
    + apply Qlt_bool_false in E5. split; [contradiction | intros H; lra].
Qed.

Lemma issue_thresholds_match_pages_witness :
  df_empty sample_products = false /\ wf_frame sample_products = true /\
  (1 - bool_mean (map isnull (s_values sample_weight))) * 100 < 80 /\
  In {| field := "Weight"; issue := "Missing values (25.0%)"; impact := "High" |}
     (missing_values_issue sample_products ("Weight", null_count sample_weight)).
Proof.
  split; [reflexivity|]. split; [reflexivity|]. split; [reflexivity|].
  apply (issue_thresholds_match_pages sample_products ("Weight", sample_weight) eq_refl eq_refl
           (or_intror (or_intror (or_introl eq_refl)))).
  reflexivity.
Defined.

(** ** The overall score of a selection *)

Lemma dashboard_filter_lookup (quality_scores : gmap string Q) (selected : list string) :
  forall (acc : gmap string Q) (k : string),
    fold_left (fun filtered_scores data_type =>
                 match quality_scores !! data_type with
                 | Some score => <[data_type := score]> filtered_scores
                 | None => filtered_scores
                 end) selected acc !! k
    = if decide (k ∈ selected)
      then match quality_scores !! k with Some s => Some s | None => acc !! k end
      else acc !! k.
Proof.
  induction selected as [|d selected IH]; intros acc k; simpl.
  - destruct (decide (k ∈ [])) as [H|_]; [|reflexivity]. inversion H.
  - rewrite IH. destruct (decide (k = d)) as [->|Hne].
    + destruct (decide (d ∈ d :: selected)) as [_|H]; [|exfalso; apply H; constructor].
      destruct (quality_scores !! d) as [s|] eqn:E.
      * rewrite lookup_insert_eq. destruct (decide (d ∈ selected)); reflexivity.
      * destruct (decide (d ∈ selected)); reflexivity.
    + assert (match quality_scores !! d with
              | Some score => <[d := score]> acc
              | None => acc
              end !! k = acc !! k) as ->.
      { destruct (quality_scores !! d); [|reflexivity].
        apply lookup_insert_ne. congruence. }
      destruct (decide (k ∈ selected)) as [H|H];
        destruct (decide (k ∈ d :: selected)) as [H'|H']; try reflexivity.
      * exfalso. apply H'. constructor. exact H.
      * exfalso. apply H. inversion H'; [congruence | assumption].
Qed.

Lemma filtered_scores_agree_aux (quality_scores : gmap string Q) (selected : list string) :
  dashboard_filtered_scores quality_scores selected
  = report_filtered_scores quality_scores selected /\
  (forall k s, dashboard_filtered_scores quality_scores selected !! k = Some s <->
               k ∈ selected /\ quality_scores !! k = Some s).
Proof.
  assert (forall k, dashboard_filtered_scores quality_scores selected !! k
                    = if decide (k ∈ selected) then quality_scores !! k else None) as L.
  { intros k. unfold dashboard_filtered_scores. rewrite dashboard_filter_lookup.
    rewrite lookup_empty. destruct (decide (k ∈ selected)); [|reflexivity].
    destruct (quality_scores !! k); reflexivity. }
  split.
  - apply map_eq. intros k. rewrite L. unfold report_filtered_scores.
    destruct (decide (k ∈ selected)) as [H|H].
    + destruct (quality_scores !! k) as [s|] eqn:E.
      * symmetry. apply map_lookup_filter_Some. auto.
      * symmetry. apply map_lookup_filter_None. auto.
    + symmetry. apply map_lookup_filter_None. right. intros x _. exact H.
  - intros k s. rewrite L. destruct (decide (k ∈ selected)); split.
    + auto.
    + intros [_ H]. exact H.
    + discriminate.
    + intros [H _]. contradiction.
Qed.

(** X18.  For the same scores and the same selection of data types,
    the dashboard (a loop over the selection) and the report (a dict
    comprehension over the scores) keep the same entries: those of the
    selected data types that have a score. *)
Theorem filtered_scores_agree (quality_scores : gmap string Q) (selected : list string) :
  dashboard_filtered_scores quality_scores selected
  = report_filtered_scores quality_scores selected /\
  (forall k s, dashboard_filtered_scores quality_scores selected !! k = Some s <->
               k ∈ selected /\ quality_scores !! k = Some s).
Proof. exact (filtered_scores_agree_aux quality_scores selected). Qed.

Lemma sum_of_scores_range (filtered_scores : gmap string Q) :
  map_Forall (fun _ s => 0 <= s /\ s <= 10) filtered_scores ->
  0 <= map_fold (fun _ score acc => acc + score) 0 filtered_scores /\
  map_fold (fun _ score acc => acc + score) 0 filtered_scores
  <= 10 * Qnat (size filtered_scores).
Proof.
  apply (map_fold_weak_ind
           (fun r (m : gmap string Q) =>
              map_Forall (fun _ s => 0 <= s /\ s <= 10) m ->
              0 <= r /\ r <= 10 * Qnat (size m))).
  - intros _. rewrite map_size_empty. split; vm_compute; discriminate.
  - intros i x m r Hi IH H. apply map_Forall_insert in H as [[Hx0 Hx1] Hm]; [|exact Hi].
    destruct (IH Hm) as [H0 H1]. rewrite (map_size_insert_None _ _ _ Hi), Qnat_S.
    split; lra.
Qed.

(** X19.  The overall health score that the dashboard and the report
    show for a selection of data types lies in [0,10], the range of the
    gauge, whenever the scores come from the analyzer run on
    well-formed tables; it is computed exactly when some selected data
    type has a score. *)
Theorem overall_score_in_range (rt : runtime) (now : Z) (self : DataQualityAnalyzer)
        (scores : gmap string Q) (selected : list string)
        (Hwf : wf_master_data (master_data self))
        (Hs : calculate_quality_scores rt now self = Some scores) :
  (forall o, overall_score (dashboard_filtered_scores scores selected) = Some o ->
             0 <= o /\ o <= 10) /\
  (is_Some (overall_score (dashboard_filtered_scores scores selected)) <->
   exists k, k ∈ selected /\ is_Some (scores !! k)).
Proof.
  set (f := dashboard_filtered_scores scores selected).
  destruct (filtered_scores_agree_aux scores selected) as [_ L]. fold f in L.
  assert (map_Forall (fun _ s => 0 <= s /\ s <= 10) f) as Hrange.
  { intros k s Hk. apply L in Hk as [_ Hk].
    rewrite (calculate_quality_scores_lookup _ _ _ _ k Hs) in Hk.
    destruct (master_data self !! k) as [data|] eqn:Hd; simpl in Hk; [|discriminate].
    exact (quality_score_range rt now k data s (Hwf k data Hd) Hk). }
  split.
  - intros o Ho. unfold overall_score in Ho.
    destruct (size f =? 0)%nat eqn:E; [discriminate|]. injection Ho as <-.
    apply Nat.eqb_neq in E.
    destruct (sum_of_scores_range f Hrange) as [H0 H1].
    pose proof (Qnat_pos (size f) ltac:(lia)) as Hp.
    split; [apply Qle_shift_div_l | apply Qle_shift_div_r]; try assumption; lra.
  - unfold overall_score. destruct (size f =? 0)%nat eqn:E.
    + apply Nat.eqb_eq, map_size_empty_iff in E. split.
      * intros [o Ho]. discriminate.
      * intros (k & Hk & [s Hs']). exfalso.
        assert (f !! k = Some s) as Hf by (apply L; auto).
        rewrite E, lookup_empty in Hf. discriminate.
    + apply Nat.eqb_neq in E. split; [|eauto]. intros _.
      destruct (map_to_list f) as [|[k s] l] eqn:El.
      * apply map_to_list_empty_iff, map_size_empty_iff in El. contradiction.
      * assert (f !! k = Some s) as Hf by (apply elem_of_map_to_list; rewrite El; constructor).
        apply L in Hf as [Hk Hs']. eauto.
Qed.

Lemma overall_score_in_range_witness :
  exists scores o,
    calculate_quality_scores sample_runtime sample_now (__init__ sample_master_data)
      = Some scores /\
    overall_score (dashboard_filtered_scores scores ["Products"; "Customers"]) = Some o /\
    0 <= o /\ o <= 10.
Proof.
  destruct (calculate_quality_scores sample_runtime sample_now (__init__ sample_master_data))
    as [scores|] eqn:Es; [|vm_compute in Es; discriminate].
  destruct (overall_score_in_range sample_runtime sample_now (__init__ sample_master_data)
              scores ["Products"; "Customers"] sample_master_data_wf Es) as [Hr Hex].
  destruct (proj2 Hex) as [o Ho].
  { exists "Products". split; [constructor|].
    rewrite (calculate_quality_scores_lookup _ _ _ _ "Products" Es).
    destruct (master_data (__init__ sample_master_data) !! "Products"
                ≫= quality_score sample_runtime sample_now "Products") eqn:E;
      [eauto | vm_compute in E; discriminate]. }
  exists scores, o. split; [reflexivity|]. split; [exact Ho|]. exact (Hr o Ho).
Defined.

(** * The SAP connector *)

Lemma truthy_Some (s : option string) :
  truthy s = true -> exists c t, s = Some (String c t).
Proof. destruct s as [[|c t]|]; simpl; try discriminate. eauto. Qed.

Lemma get_auth_token_cases (http : http_request -> http_reply) (self : SAPConnector)
      (now stored_at : Q) :
  (* the cached token is returned *)
  (truthy (token self) = true /\
   (exists expiry, token_expiry self = Some expiry /\ ~ expiry == 0 /\ now < expiry) /\
   _get_auth_token http self now stored_at = (token self, self, [])) \/
  (* a new token is stored *)
  (exists csrf, truthy (Some csrf) = true /\
                http (auth_request self) = Reply 200 (Some csrf) /\
                _get_auth_token http self now stored_at
                = (Some csrf,
                   {| url := url self; client := client self; username := username self;
                      password := password self; token := Some csrf;
                      token_expiry := Some (stored_at + token_lifetime) |},
                   [auth_request self])) \/
  (* no token *)
  _get_auth_token http self now stored_at = (None, self, [auth_request self]).
Proof.
  unfold _get_auth_token.
  destruct (truthy (token self) && truthy_number (token_expiry self) &&
            match token_expiry self with
            | Some expiry => Qlt_bool now expiry
            | None => false
            end)%bool eqn:C.
  - left. apply andb_prop in C as [C Hlt]. apply andb_prop in C as [Ht He].
    split; [exact Ht|]. split; [|reflexivity].
    destruct (token_expiry self) as [e|]; [|discriminate]. exists e.
    split; [reflexivity|]. split.
    + simpl in He. apply negb_true_iff in He. intros H. apply Qeq_bool_iff in H. congruence.
    + apply Qlt_bool_iff, Hlt.
  - right. destruct (http (auth_request self)) as [status csrf|]; [|right; reflexivity].
    destruct (status =? 200)%Z eqn:Es; [|right; reflexivity].
    destruct (truthy csrf) eqn:Et; [|right; reflexivity].
    left. apply Z.eqb_eq in Es. subst status.
    destruct (truthy_Some csrf Et) as (c & t & ->). exists (String c t). auto.
Qed.

(** X20.  Once [_get_auth_token] has returned a token, every later call
    before the expiry of that token returns the same token without
    sending a request and without changing the connector, whatever the
    server would answer; a token that was just fetched expires 23
    hours after it was stored. *)
Theorem token_reuse (http : http_request -> http_reply) (self self' : SAPConnector)
        (now stored_at : Q) (tok : string) (sent : list http_request)
        (Hclock : 0 <= now /\ now <= stored_at)
        (Hcall : _get_auth_token http self now stored_at = (Some tok, self', sent)) :
  exists expiry,
    token_expiry self' = Some expiry /\ now < expiry /\
    (sent <> [] -> expiry = stored_at + token_lifetime) /\
    forall (http' : http_request -> http_reply) (later later' : Q),
      later < expiry ->
      _get_auth_token http' self' later later' = (Some tok, self', []).
Proof.
  destruct Hclock as [H0 Hle].
  assert (forall (s : SAPConnector) e http' later later',
             token s = Some tok -> truthy (token s) = true ->
             token_expiry s = Some e -> ~ e == 0 -> later < e ->
             _get_auth_token http' s later later' = (Some tok, s, [])) as Reuse.
  { intros s e http' later later' Ht Htr He Hnz Hlt. unfold _get_auth_token.
    rewrite Htr, He. simpl.
    assert (Qeq_bool e 0 = false) as ->.
    { destruct (Qeq_bool e 0) eqn:E; [|reflexivity]. apply Qeq_bool_iff in E. contradiction. }
    apply Qlt_bool_iff in Hlt. rewrite Hlt. simpl. rewrite Ht. reflexivity. }
  destruct (get_auth_token_cases http self now stored_at)
    as [(Ht & (e & He & Hnz & Hlt) & E) | [(csrf & Ht & _ & E) | E]];
    rewrite E in Hcall; [| |discriminate].
  - injection Hcall as Htok <- <-. exists e.
    split; [exact He|]. split; [exact Hlt|]. split; [contradiction|].
    intros http' later later' Hl. apply (Reuse self e); auto.
  - injection Hcall as -> <- <-. exists (stored_at + token_lifetime).
    assert (0 < token_lifetime) as Hlife by reflexivity.
    split; [reflexivity|]. split; [lra|]. split; [reflexivity|].
    intros http' later later' Hl. apply (Reuse _ (stored_at + token_lifetime)); auto.
    simpl. intros H. lra.
Qed.

Lemma token_reuse_witness :
  exists self',
    _get_auth_token sample_server sample_connector 1000 1001
    = (Some "tok-1", self', [auth_request sample_connector]) /\
    _get_auth_token (fun _ => Raised) self' 80000 80001 = (Some "tok-1", self', []).
Proof.
  destruct (_get_auth_token sample_server sample_connector 1000 1001)
    as [[tok self'] sent] eqn:E.
  assert (tok = Some "tok-1" /\ sent = [auth_request sample_connector]) as [-> ->].
  { vm_compute in E. injection E as <- _ <-. split; reflexivity. }
  exists self'. split; [reflexivity|].
  destruct (token_reuse sample_server sample_connector self' 1000 1001 "tok-1" _
              ltac:(split; discriminate) E) as (e & He & _ & Hfresh & Hreuse).
  apply Hreuse. rewrite (Hfresh ltac:(discriminate)). reflexivity.
Defined.

Lemma get_auth_token_effects_aux (http : http_request -> http_reply) (self : SAPConnector)
        (now stored_at : Q) :
  let '(tok, self', sent) := _get_auth_token http self now stored_at in
  (sent = [] \/ sent = [auth_request self]) /\
  tok <> Some "" /\
  (url self', client self', username self', password self')
  = (url self, client self, username self, password self) /\
  (tok = None -> self' = self).
Proof.
  destruct (get_auth_token_cases http self now stored_at)
    as [(Ht & _ & E) | [(csrf & Ht & _ & E) | E]]; rewrite E.
  - split; [auto|]. split; [|split; [reflexivity | reflexivity]].
    intros H. rewrite H in Ht. discriminate.
  - split; [auto|]. split; [|split; [reflexivity | discriminate]].
    intros [= ->]. discriminate.
  - split; [auto|]. split; [discriminate|]. split; reflexivity.
Qed.

(** X21.  [_get_auth_token] sends at most one request, the GET of the
    authentication URL with the user "username@client"; it never
    returns an empty token, never changes the URL or the credentials of
    the connector, and leaves the connector as it was when it returns
    no token. *)
Theorem get_auth_token_effects (http : http_request -> http_reply) (self : SAPConnector)
        (now stored_at : Q) :
  let '(tok, self', sent) := _get_auth_token http self now stored_at in
  (sent = [] \/ sent = [auth_request self]) /\
  tok <> Some "" /\
  (url self', client self', username self', password self')
  = (url self, client self, username self, password self) /\
  (tok = None -> self' = self).
Proof. exact (get_auth_token_effects_aux http self now stored_at). Qed.

(** X22.  [submit_data_correction] returns [True] only when the data
    type has an endpoint and the last request sent is the PATCH of
    that endpoint followed by ('record_id'), carrying a token, the
    credentials and the corrections, answered with status 200, 201 or
    204; for a data type without endpoint it returns [False] and sends
    no PATCH. *)
Theorem submit_data_correction_sends (http : http_request -> http_reply) (self : SAPConnector)
        (data_type record_id : string) (corrections : list (string * string))
        (now stored_at : Q) :
  let '(ok, self', sent) :=
    submit_data_correction http self data_type record_id corrections now stored_at in
  (ok = true ->
   exists base tok before status csrf,
     _get_endpoint_for_data_type data_type = Some base /\
     tok <> "" /\
     sent = (before ++ [patch_request self tok (base ++ "('" ++ record_id ++ "')")
                                      corrections])%list /\
     (before = [] \/ before = [auth_request self]) /\
     http (patch_request self tok (base ++ "('" ++ record_id ++ "')") corrections)
     = Reply status csrf /\
     (status = 200 \/ status = 201 \/ status = 204)%Z) /\
  (_get_endpoint_for_data_type data_type = None ->
   ok = false /\ (sent = [] \/ sent = [auth_request self])).
Proof.
  unfold submit_data_correction.
  pose proof (get_auth_token_effects_aux http self now stored_at) as Heff.
  destruct (_get_auth_token http self now stored_at) as [[tok self'] sent0].
  destruct Heff as (Hsent & _ & Hcred & _).
  assert (forall t r, patch_request self' t r corrections = patch_request self t r corrections)
    as Hpatch.
  { intros t r. unfold patch_request. injection Hcred as -> -> -> ->. reflexivity. }
  destruct tok as [[|c t]|].
  - split; [discriminate | auto].
  - destruct (_get_endpoint_for_data_type data_type) as [[|e base]|] eqn:Ee.
    + split; [discriminate | discriminate].
    + rewrite Hpatch.
      destruct (http (patch_request self (String c t) _ corrections))
        as [status csrf|] eqn:Er.
      * split; [|discriminate]. intros Hok.
        exists (String e base), (String c t), sent0, status, csrf.
        split; [reflexivity|]. split; [discriminate|]. split; [reflexivity|].
        split; [exact Hsent|]. split; [exact Er|].
        simpl in Hok. rewrite !orb_true_iff, !Z.eqb_eq in Hok.
        destruct Hok as [H | [H | [H | H]]]; auto. discriminate.
      * split; discriminate.
    + split; [discriminate | auto].
  - split; [discriminate | auto].
Qed.

Example submit_sample :
  fst (fst (submit_data_correction sample_server sample_connector "products" "P000001"
                                   [("Price", "12.5")] 1000 1001)) = true /\
  fst (fst (submit_data_correction sample_server sample_connector "Products" "P000001"
                                   [("Price", "12.5")] 1000 1001)) = false.
Proof. split; vm_compute; reflexivity. Qed.

(** X23.  Every data type for which the analyzer has key fields has an
    endpoint under the name with which the application fetches it
    (lower case, spaces replaced by underscores), different data types
    have different endpoints, and the name of the data type itself,
    with its capital letters, has no endpoint. *)
Theorem fetch_names_have_endpoints (data_type : string) (keys : list string)
        (Hk : key_mapping !! data_type = Some keys) :
  is_Some (_get_endpoint_for_data_type (fetch_name data_type)) /\
  _get_endpoint_for_data_type data_type = None /\
  (forall other keys',
      key_mapping !! other = Some keys' ->
      _get_endpoint_for_data_type (fetch_name other)
      = _get_endpoint_for_data_type (fetch_name data_type) ->
      other = data_type).
Proof.
  assert (forall (P : string -> Prop),
             P "Products" -> P "Locations" -> P "Customers" -> P "Suppliers" ->
             P "Time Profiles" -> P "Resource Plans" ->
             forall t ks, key_mapping !! t = Some ks -> P t) as Cases.
  { intros P H1 H2 H3 H4 H5 H6.
    change (map_Forall (fun t _ => P t) key_mapping).
    unfold key_mapping. rewrite !list_to_map_cons, list_to_map_nil.
    repeat (apply map_Forall_insert_2; [assumption|]). apply map_Forall_empty. }
  revert data_type keys Hk.
  apply (Cases (fun t =>
                  is_Some (_get_endpoint_for_data_type (fetch_name t)) /\
                  _get_endpoint_for_data_type t = None /\
                  (forall other keys',
                      key_mapping !! other = Some keys' ->
                      _get_endpoint_for_data_type (fetch_name other)
                      = _get_endpoint_for_data_type (fetch_name t) ->
                      other = t)));
    (split; [eexists; vm_compute; reflexivity|]);
    (split; [vm_compute; reflexivity|]);
    apply (Cases (fun o => _get_endpoint_for_data_type (fetch_name o) = _ -> o = _));
    intros H; first [reflexivity | vm_compute in H; discriminate H].
Qed.

Lemma fetch_names_have_endpoints_witness :
  key_mapping !! "Time Profiles" = Some ["TimeProfileID"] /\
  fetch_name "Time Profiles" = "time_profiles" /\
  _get_endpoint_for_data_type (fetch_name "Time Profiles")
  = Some "/sap/opu/odata/IBP/TIMEPROFILE_MASTER_SRV/TimeProfiles".
Proof.
  split; [reflexivity|]. split; [reflexivity|].
  destruct (fetch_names_have_endpoints "Time Profiles" _ eq_refl) as [[e He] _].
  rewrite He. vm_compute in He. symmetry. exact He.
Defined.

(** * Two consequences for the reports *)

Lemma startswith_update_date (s : string) :
  PyStr.startswith "update" s = true ->
  exists a b r, s = String a (String b r) /\ PyStr.startswith "date" r = true.
Proof.
  destruct s as [|a [|b r]]; simpl; try discriminate.
  - rewrite andb_false_r. discriminate.
  - intros H. apply andb_prop in H as [_ H]. apply andb_prop in H as [_ H].
    exists a, b, r. split; [reflexivity|]. exact H.
Qed.

Lemma contains_tail (sub : string) (c : ascii) (s : string) :
  PyStr.contains sub s = true -> PyStr.contains sub (String c s) = true.
Proof.
  intros H. change (PyStr.contains sub (String c s))
    with (PyStr.startswith sub (String c s) || PyStr.contains sub s)%bool.
  rewrite H. apply orb_true_r.
Qed.

Lemma contains_startswith (sub s : string) :
  PyStr.startswith sub s = true -> PyStr.contains sub s = true.
Proof. intros H. destruct s; simpl in *; rewrite H; reflexivity. Qed.

Lemma contains_update_date (s : string) :
  PyStr.contains "update" s = true -> PyStr.contains "date" s = true.
Proof.
  induction s as [|c s IH].
  - simpl. discriminate.
  - intros H.
    change (PyStr.contains "update" (String c s))
      with (PyStr.startswith "update" (String c s) || PyStr.contains "update" s)%bool in H.
    apply orb_true_iff in H as [H | H].
    + apply startswith_update_date in H as (a & b & r & E & Hd).
      injection E as -> ->.
      apply contains_tail, contains_tail, contains_startswith, Hd.
    + apply contains_tail, IH, H.
Qed.

(** X24.  A column that timeliness recognises by the term "update" is
    also a date column for validity, because its name contains
    "date": when such a column of a non-empty table is datetime-typed
    and its name contains neither "future" nor "forecast", the validity
    score averages in 100 times the share of its rows that are not in
    the future. *)
Theorem update_columns_are_checked_for_future_dates
        (now : Z) (data_type : string) (data : DataFrame) (c : string * Series)
        (Hc : In c (columns data))
        (Hname : PyStr.contains "update" (PyStr.lower (fst c)) = true)
        (Hdt : s_dtype (snd c) = datetime64)
        (Hfuture : PyStr.contains "future" (PyStr.lower (fst c)) = false)
        (Hforecast : PyStr.contains "forecast" (PyStr.lower (fst c)) = false)
        (Hrows : s_values (snd c) <> []) :
  is_timestamp_name (fst c) = true /\
  PyStr.contains "date" (PyStr.lower (fst c)) = true /\
  In (100 * (1 - Qnat (future_rows now (snd c)) / Qnat (length (s_values (snd c)))))
     (validity_scores now data_type data).
Proof.
  pose proof (contains_update_date _ Hname) as Hdate.
  split; [|split; [exact Hdate|]].
  - unfold is_timestamp_name, timestamp_terms. simpl. rewrite Hname. reflexivity.
  - unfold validity_scores. apply List.in_or_app. left.
    apply List.in_flat_map. exists c. split.
    + apply List.filter_In. split; [exact Hc|]. rewrite Hdate. reflexivity.
    + rewrite (future_date_check_fraction now c Hdt Hfuture Hforecast Hrows).
      left. reflexivity.
Qed.

Lemma update_columns_are_checked_for_future_dates_witness :
  PyStr.contains "update" (PyStr.lower "UpdatedAt") = true /\
  In (100 * (1 - Qnat (future_rows sample_now sample_updated_at) / Qnat 10))
     (validity_scores sample_now "Orders" sample_updates).
Proof.
  split; [reflexivity|].
  apply (update_columns_are_checked_for_future_dates sample_now "Orders" sample_updates
           ("UpdatedAt", sample_updated_at)
           (or_intror (or_introl eq_refl)) eq_refl eq_refl eq_refl eq_refl).
  discriminate.
Defined.

Lemma low_null_rates_bound (n : nat) (cols : list (string * Series)) :
  (forall c, In c cols -> Qnat (null_count (snd c)) * 100 <= 5 * Qnat n) ->
  Qnat (fold_right (fun c acc => null_count (snd c) + acc)%nat O cols) * 100
  <= 5 * Qnat n * Qnat (length cols).
Proof.
  intros H. induction cols as [|c cols IH].
  - cbn [fold_right length]. change (Qnat 0) with 0. lra.
  - cbn [fold_right]. pose proof (Qnat_S (length cols)) as HS.
    change (S (length cols)) with (length (c :: cols)) in HS. rewrite HS.
    assert (Qnat (null_count (snd c) + fold_right (fun c acc => null_count (snd c) + acc)%nat
                                                  O cols)
            == Qnat (null_count (snd c))
               + Qnat (fold_right (fun c acc => null_count (snd c) + acc)%nat O cols)) as ->.
    { unfold Qnat. rewrite Nat2Z.inj_add, inject_Z_plus. reflexivity. }
    pose proof (H c (or_introl eq_refl)) as Hc.
    assert (forall c', In c' cols -> Qnat (null_count (snd c')) * 100 <= 5 * Qnat n) as H'
        by (intros c' Hc'; apply H; right; exact Hc').
    specialize (IH H'). lra.
Qed.

(** X25.  When the completeness score of a non-empty table is below
    95, some column has a null rate above 5%: the report then has at
    least one issue about missing values. *)
Theorem low_completeness_reports_a_column (rt : runtime) (now : Z) (data_type : string)
        (data : DataFrame) (m : Metrics)
        (Hne : df_empty data = false)
        (Hlow : _calculate_completeness data < 95)
        (Hm : analyze_data_health_for_type rt now data_type data = Some m) :
  exists c i,
    In c (columns data) /\
    5 < Qnat (null_count (snd c)) / Qnat (index_len data) * 100 /\
    In i (issues m) /\ field i = fst c /\
    PyStr.startswith "Missing values (" (issue i) = true.
Proof.
  destruct (nonempty_size data Hne) as [Hr Hc].
  pose proof (Qnat_pos _ Hr) as Hn. pose proof (Qnat_pos _ Hc) as Hk.
  destruct (existsb (fun c => Qlt_bool 5 (Qnat (null_count (snd c))
                                           / Qnat (index_len data) * 100))
                    (columns data)) eqn:E.
  - apply List.existsb_exists in E as (c & Hin & Hrate). apply Qlt_bool_iff in Hrate.
    exists c. eexists. split; [exact Hin|]. split; [exact Hrate|]. split.
    + apply (analyze_issues rt now data_type data m Hm).
      apply Qlt_bool_iff in Hlow. rewrite Hlow.
      apply (completeness_issues_In data c Hin Hrate).
    + split; reflexivity.
  - exfalso.
    assert (forall c, In c (columns data) ->
                      Qnat (null_count (snd c)) * 100 <= 5 * Qnat (index_len data)) as Hall.
    { intros c Hin.
      assert (Qlt_bool 5 (Qnat (null_count (snd c)) / Qnat (index_len data) * 100) = false)
        as Hc'.
      { destruct (Qlt_bool 5 _) eqn:E'; [|reflexivity].
        assert (existsb (fun c => Qlt_bool 5 (Qnat (null_count (snd c))
                                               / Qnat (index_len data) * 100))
                        (columns data) = true) as Hex
            by (apply List.existsb_exists; exists c; auto).
        congruence. }
      apply Qlt_bool_false in Hc'.
      assert (Qnat (null_count (snd c))
              == Qnat (null_count (snd c)) / Qnat (index_len data) * Qnat (index_len data))
        as Eq by (field; lra).
      rewrite Eq.
      set (q := Qnat (null_count (snd c)) / Qnat (index_len data)) in *. nra. }
    pose proof (low_null_rates_bound (index_len data) (columns data) Hall) as Hsum.
    fold (missing_cells data) in Hsum.
    rewrite (completeness_nonempty data Hne) in Hlow. unfold df_size in Hlow.
    assert (Qnat (index_len data * length (columns data))
            == Qnat (index_len data) * Qnat (length (columns data))) as Emul.
    { unfold Qnat. rewrite Nat2Z.inj_mul, inject_Z_mult. reflexivity. }
    rewrite Emul in Hlow.
    set (t := Qnat (index_len data) * Qnat (length (columns data))) in *.
    assert (0 < t) as Ht by (unfold t; nra).
    assert (Qnat (missing_cells data) == Qnat (missing_cells data) / t * t) as Eq
        by (field; lra).
    set (f := Qnat (missing_cells data) / t) in *.
    assert (f * t * 100 <= 5 * t) as Hsum'.
    { rewrite <- Eq. unfold t. rewrite Qmult_assoc. exact Hsum. }
    assert (f * 100 <= 5) as Hf.
    { apply Qmult_lt_0_le_reg_r with t; [exact Ht|].
      assert (f * 100 * t == f * t * 100) as -> by ring. exact Hsum'. }
    lra.
Qed.

Lemma low_completeness_reports_a_column_witness :
  df_empty sample_products = false /\ _calculate_completeness sample_products < 95 /\
  exists m i,
    analyze_data_health_for_type sample_runtime sample_now "Products" sample_products = Some m /\
    In i (issues m) /\ PyStr.startswith "Missing values (" (issue i) = true.
Proof.
  split; [reflexivity|]. split; [reflexivity|].
  destruct (analyze_data_health_for_type sample_runtime sample_now "Products" sample_products)
    as [m|] eqn:E; [|vm_compute in E; discriminate].
  destruct (low_completeness_reports_a_column sample_runtime sample_now "Products"
              sample_products m eq_refl eq_refl E) as (c & i & _ & _ & Hi & _ & Ht).
  exists m, i. auto.
Defined.
